(** * SpaceX launch records dashboard: the two chart callbacks

    A shallow embedding of [spacex-dash-app.py].  The program loads one
    table ([spacex_df]) at start-up and registers two Dash callbacks,
    [get_pie_chart] and [get_scatter_chart], that read the table, filter
    and count its rows with pandas, and hand the result to plotly
    express.  The pandas and plotly operations the callbacks use are
    modelled in the modules [pd] and [px]; the callbacks themselves are
    transcribed statement by statement. *)

From Stdlib Require Import ZArith List String Bool Lia Permutation DecimalString.
Import ListNotations.
Open Scope string_scope.
Open Scope Z_scope.

(** ** The table *)

(** One row of [spacex_launch_dash.csv], restricted to the four columns
    the callbacks read.  Both numeric columns are integers here. *)
Record LaunchRecord := mkLaunch {
  launch_site : string;               (* 'Launch Site' *)
  class : Z;                          (* 'class' *)
  payload_mass : Z;                   (* 'Payload Mass (kg)' *)
  booster_version_category : string   (* 'Booster Version Category' *)
}.

Definition DataFrame := list LaunchRecord.

(** ** Exceptions and the callback monad *)

Inductive exn := ValueError.

Inductive Result (A : Type) :=
| Ok (a : A)
| Raise (e : exn).
Arguments Ok {A} a.
Arguments Raise {A} e.

(** A callback runs against the module-level global [spacex_df]: it
    receives the current table and gives back its result (or the
    exception it raised) together with the table it leaves behind. *)
Definition App (A : Type) := DataFrame -> Result A * DataFrame.

Definition ret {A} (a : A) : App A := fun df => (Ok a, df).

Definition bind {A B} (m : App A) (k : A -> App B) : App B :=
  fun df =>
    match m df with
    | (Ok a, df') => k a df'
    | (Raise e, df') => (Raise e, df')
    end.

Definition lift {A} (r : Result A) : App A := fun df => (r, df).

Definition read_spacex_df : App DataFrame := fun df => (Ok df, df).

Notation "x <- m ;; k" := (bind m (fun x => k))
  (at level 61, m at next level, right associativity).

Definition result_of {A} (m : App A) (df : DataFrame) : Result A := fst (m df).
Definition table_after {A} (m : App A) (df : DataFrame) : DataFrame := snd (m df).

(** ** pandas *)

Module pd.

(** A Series with an integer index and integer values, in row order. *)
Definition Series := list (Z * Z).

Definition index (s : Series) : list Z := map fst s.
Definition values (s : Series) : list Z := map snd s.

(** [df[mask]]: the rows at which the boolean mask holds, in order. *)
Definition select (mask : LaunchRecord -> bool) (df : DataFrame) : DataFrame :=
  filter mask df.

(** One more occurrence of [k]; a key not seen before goes to the end. *)
Fixpoint bump (k : Z) (s : Series) : Series :=
  match s with
  | [] => [(k, 1)]
  | (k', c) :: t => if k =? k' then (k', c + 1) :: t else (k', c) :: bump k t
  end.

(** Occurrences of each distinct value, keyed in order of first
    appearance. *)
Definition tally (xs : list Z) : Series :=
  fold_left (fun acc x => bump x acc) xs [].

(** [sort_values(ascending=False)]: larger values first, equal values
    keep their relative order. *)
Fixpoint insert_desc (e : Z * Z) (s : Series) : Series :=
  match s with
  | [] => [e]
  | h :: t => if snd e <? snd h then h :: insert_desc e t else e :: h :: t
  end.

Definition sort_values_desc (s : Series) : Series :=
  fold_right insert_desc [] s.

(** [Series.value_counts()] with its defaults ([sort=True],
    [ascending=False]): the most frequent value comes first. *)
Definition value_counts (xs : list Z) : Series :=
  sort_values_desc (tally xs).

(** How often [k] occurs in a column. *)
Definition occurrences (k : Z) (xs : list Z) : Z :=
  Z.of_nat (List.length (filter (fun x => x =? k) xs)).

(** The sum of an array of counts. *)
Definition total (zs : list Z) : Z := fold_right Z.add 0 zs.

(** [k in series.index]. *)
Definition contains (k : Z) (idx : list Z) : bool := existsb (Z.eqb k) idx.

(** [Series.unique()]: the distinct values, in order of first appearance. *)
Definition unique_step (seen : list string) (x : string) : list string :=
  if existsb (String.eqb x) seen then seen else (seen ++ [x])%list.

Definition unique (xs : list string) : list string :=
  fold_left unique_step xs [].

(** [Series.min()] and [Series.max()]; an empty column has neither (the
    result is NaN), which is [None] here. *)
Definition min (xs : list Z) : option Z :=
  match xs with
  | [] => None
  | x :: t => Some (fold_left Z.min t x)
  end.

Definition max (xs : list Z) : option Z :=
  match xs with
  | [] => None
  | x :: t => Some (fold_left Z.max t x)
  end.

(** [series[k]] where [k] is in the index. *)
Fixpoint get (k : Z) (s : Series) : option Z :=
  match s with
  | [] => None
  | (k', c) :: t => if k =? k' then Some c else get k t
  end.

End pd.

(** ** plotly express *)

Module px.

Inductive Palette :=
| Set3                            (* px.colors.qualitative.Set3 *)
| Colors (cs : list string).

Record Layout := {
  title_font_size : option Z;
  font_size : option Z;
  xaxis_title : option string;
  yaxis_title : option string;
  yaxis_ticks : list (Z * string);
  showgrid : bool
}.

Definition default_layout : Layout :=
  {| title_font_size := None; font_size := None; xaxis_title := None;
     yaxis_title := None; yaxis_ticks := []; showgrid := false |}.

(** A pie figure: one label and one value per input row. *)
Record PieFigure := {
  pie_labels : list string;
  pie_values : list Z;
  pie_title : string;
  pie_colors : Palette;
  pie_layout : Layout
}.

(** [px.pie(data_frame, values=<column>, names=<column>, ...)]. *)
Definition pie_frame (df : DataFrame) (values : LaunchRecord -> Z)
    (names : LaunchRecord -> string) (title : string) (colors : Palette)
    : Result PieFigure :=
  Ok {| pie_labels := map names df; pie_values := map values df;
        pie_title := title; pie_colors := colors;
        pie_layout := default_layout |}.

(** [px.pie(values=<array>, names=<list>, ...)]: array arguments of
    different lengths are refused ("All arguments should have the same
    length"). *)
Definition pie (values : list Z) (names : list string) (title : string)
    (colors : Palette) : Result PieFigure :=
  if Nat.eqb (List.length names) (List.length values) then
    Ok {| pie_labels := names; pie_values := values;
          pie_title := title; pie_colors := colors;
          pie_layout := default_layout |}
  else Raise ValueError.

(** *** The sectors of a pie figure

    A pie figure leaves Python as two arrays, [labels] and [values], one
    entry per input row; the sectors are computed from them by the
    renderer (plotly.js, pie trace) in the browser.  That step is not
    part of the Python source; it is written here after the renderer's
    rules:
    - only the first [min (len labels) (len values)] entries count;
    - a trace none of whose values is positive is not drawn at all;
    - an empty label stands for the position of its entry;
    - entries with equal labels are one sector, whose value is the sum
      of theirs;
    - a sector whose sum is negative is dropped (a sum of 0 stays);
    - sectors are ordered by value, largest first, sectors of equal
      value in order of first appearance. *)

(** One more entry [(l, v)]: added to the sector of [l], or a new
    sector at the end. *)
Fixpoint add_sector (l : string) (v : Z) (acc : list (string * Z))
    : list (string * Z) :=
  match acc with
  | [] => [(l, v)]
  | (l', v') :: t =>
      if String.eqb l l' then (l', v' + v) :: t
      else (l', v') :: add_sector l v t
  end.

Definition sectors_of (rows : list (string * Z)) (acc : list (string * Z))
    : list (string * Z) :=
  fold_left (fun acc lv => add_sector (fst lv) (snd lv) acc) rows acc.

(** The label under which entry [i] is counted. *)
Definition sector_label (i : nat) (l : string) : string :=
  if String.eqb l "" then NilZero.string_of_uint (Nat.to_uint i) else l.

Fixpoint position_labels (i : nat) (labels : list string) : list string :=
  match labels with
  | [] => []
  | l :: t => sector_label i l :: position_labels (S i) t
  end.

Fixpoint insert_sector (e : string * Z) (ss : list (string * Z))
    : list (string * Z) :=
  match ss with
  | [] => [e]
  | h :: t => if snd e <? snd h then h :: insert_sector e t else e :: h :: t
  end.

Definition sort_sectors (ss : list (string * Z)) : list (string * Z) :=
  fold_right insert_sector [] ss.

Definition sectors_from (labels : list string) (values : list Z)
    : list (string * Z) :=
  let rows := combine (position_labels 0 labels) values in
  if existsb (fun v => 0 <? v) (map snd rows) then
    sort_sectors (filter (fun s => 0 <=? snd s) (sectors_of rows []))
  else [].

Definition sectors (fig : PieFigure) : list (string * Z) :=
  sectors_from (pie_labels fig) (pie_values fig).

Fixpoint sector_value (l : string) (ss : list (string * Z)) : option Z :=
  match ss with
  | [] => None
  | (l', v) :: t => if String.eqb l l' then Some v else sector_value l t
  end.

Definition sector_total (l : string) (ss : list (string * Z)) : Z :=
  match px.sector_value l ss with
  | Some v => v
  | None => 0
  end.

(** The sum of the values entered under label [l]. *)
Fixpoint label_sum (l : string) (rows : list (string * Z)) : Z :=
  match rows with
  | [] => 0
  | (l', v) :: t => (if String.eqb l l' then v else 0) + label_sum l t
  end.

(** One marker of a scatter figure. *)
Record Point := {
  pt_x : Z;
  pt_y : Z;
  pt_color : string;
  pt_size : Z;
  pt_hover : list (string * string)   (* extra hover columns: name, value *)
}.

Record ScatterFigure := {
  sc_data : DataFrame;                (* the rows plotted *)
  sc_points : list Point;
  sc_title : string;
  sc_labels : list (string * string);
  sc_layout : Layout
}.

(** [px.scatter(data_frame, x=, y=, color=, size=, hover_data=, ...)].
    Every row becomes one marker.  Marker sizes are validated: a negative
    size is refused with a [ValueError]. *)
Definition scatter (df : DataFrame) (x y : LaunchRecord -> Z)
    (color : LaunchRecord -> string) (size : LaunchRecord -> Z)
    (hover_data : list (string * (LaunchRecord -> string)))
    (title : string) (labels : list (string * string))
    : Result ScatterFigure :=
  if forallb (fun r => 0 <=? size r) df then
    Ok {| sc_data := df;
          sc_points :=
            map (fun r => {| pt_x := x r; pt_y := y r; pt_color := color r;
                             pt_size := size r;
                             pt_hover := map (fun c => (fst c, snd c r)) hover_data |})
                df;
          sc_title := title; sc_labels := labels;
          sc_layout := default_layout |}
  else Raise ValueError.

End px.

(** ** The callbacks *)

Definition pie_update_layout (fig : px.PieFigure) : px.PieFigure :=
  {| px.pie_labels := px.pie_labels fig; px.pie_values := px.pie_values fig;
     px.pie_title := px.pie_title fig; px.pie_colors := px.pie_colors fig;
     px.pie_layout :=
       {| px.title_font_size := Some 20; px.font_size := Some 14;
          px.xaxis_title := px.xaxis_title (px.pie_layout fig);
          px.yaxis_title := px.yaxis_title (px.pie_layout fig);
          px.yaxis_ticks := px.yaxis_ticks (px.pie_layout fig);
          px.showgrid := px.showgrid (px.pie_layout fig) |} |}.

Definition scatter_update_layout (fig : px.ScatterFigure) : px.ScatterFigure :=
  {| px.sc_data := px.sc_data fig; px.sc_points := px.sc_points fig;
     px.sc_title := px.sc_title fig; px.sc_labels := px.sc_labels fig;
     px.sc_layout :=
       {| px.title_font_size := Some 16; px.font_size := Some 12;
          px.xaxis_title := Some "Payload Mass (kg)";
          px.yaxis_title := Some "Launch Outcome";
          px.yaxis_ticks := [(0, "Failure"); (1, "Success")];
          px.showgrid := true |} |}.

(** [spacex_df[spacex_df['Launch Site'] == entered_site]] *)
Definition site_rows (entered_site : string) (df : DataFrame) : DataFrame :=
  pd.select (fun r => String.eqb (launch_site r) entered_site) df.

(** [filtered_df['class'].value_counts()] *)
Definition success_counts (entered_site : string) (df : DataFrame) : pd.Series :=
  pd.value_counts (map class (site_rows entered_site df)).

(** [['Failed', 'Success'] if 0 in success_counts.index else ['Success']] *)
Definition pie_names (counts : pd.Series) : list string :=
  if pd.contains 0 (pd.index counts) then ["Failed"; "Success"] else ["Success"].

Definition get_pie_chart (entered_site : string) : App px.PieFigure :=
  spacex_df <- read_spacex_df ;;
  fig <- (if String.eqb entered_site "ALL" then
            lift (px.pie_frame spacex_df class launch_site
                    "Total Success Launches By Site" px.Set3)
          else
            let counts := success_counts entered_site spacex_df in
            lift (px.pie (pd.values counts) (pie_names counts)
                    ("Total Success Launches for site " ++ entered_site)
                    (px.Colors ["#ff7f7f"; "#7fbf7f"]))) ;;
  ret (pie_update_layout fig).

(** [spacex_df[(payload >= low) & (payload <= high)]] *)
Definition payload_rows (payload_range : Z * Z) (df : DataFrame) : DataFrame :=
  let (low, high) := payload_range in
  pd.select (fun r => (payload_mass r >=? low) && (payload_mass r <=? high)) df.

Definition get_scatter_chart (entered_site : string) (payload_range : Z * Z)
    : App px.ScatterFigure :=
  spacex_df <- read_spacex_df ;;
  let filtered_df := payload_rows payload_range spacex_df in
  fig <- (if String.eqb entered_site "ALL" then
            lift (px.scatter filtered_df payload_mass class
                    booster_version_category payload_mass
                    [("Launch Site", launch_site)]
                    "Correlation between Payload and Success for all Sites"
                    [("class", "Launch Outcome")])
          else
            let site_filtered_df := site_rows entered_site filtered_df in
            lift (px.scatter site_filtered_df payload_mass class
                    booster_version_category payload_mass
                    []
                    ("Correlation between Payload and Success for site " ++ entered_site)
                    [("class", "Launch Outcome")])) ;;
  ret (scatter_update_layout fig).

(** ** The controls and their wiring

    [site-dropdown] feeds both callbacks, [payload-slider] only the
    scatter callback, as the [Input] lists of the two [@app.callback]
    decorators declare. *)
Record Controls := {
  site_dropdown : string;
  payload_slider : Z * Z
}.

Definition success_pie_chart (c : Controls) : App px.PieFigure :=
  get_pie_chart (site_dropdown c).

Definition success_payload_scatter_chart (c : Controls) : App px.ScatterFigure :=
  get_scatter_chart (site_dropdown c) (payload_slider c).

(** ** Start-up values and the two controls of the layout *)

Definition max_payload (spacex_df : DataFrame) : option Z :=
  pd.max (map payload_mass spacex_df).

Definition min_payload (spacex_df : DataFrame) : option Z :=
  pd.min (map payload_mass spacex_df).

Record DropdownOption := {
  opt_label : string;
  opt_value : string
}.

(** The [options] of [site-dropdown]: 'All Sites' first, then one option
    per distinct launch site. *)
Definition site_dropdown_options (spacex_df : DataFrame) : list DropdownOption :=
  [ {| opt_label := "All Sites"; opt_value := "ALL" |} ]
  ++ map (fun site => {| opt_label := site; opt_value := site |})
         (pd.unique (map launch_site spacex_df)).

Definition site_dropdown_default : string := "ALL".

Record RangeSlider := {
  slider_min : Z;
  slider_max : Z;
  slider_step : Z;
  slider_value : option Z * option Z
}.

Definition payload_slider_layout (spacex_df : DataFrame) : RangeSlider :=
  {| slider_min := 0; slider_max := 10000; slider_step := 1000;
     slider_value := (min_payload spacex_df, max_payload spacex_df) |}.

(** The control values of a freshly loaded page, when the slider holds a
    numeric range. *)
Definition initial_controls (spacex_df : DataFrame) : option Controls :=
  match slider_value (payload_slider_layout spacex_df) with
  | (Some low, Some high) =>
      Some {| site_dropdown := site_dropdown_default; payload_slider := (low, high) |}
  | _ => None
  end.

(** ** Sample tables *)

Definition sample_table : DataFrame :=
  [ mkLaunch "SiteA" 1 500 "v1";
    mkLaunch "SiteA" 0 700 "v1";
    mkLaunch "SiteB" 1 600 "v2" ].

Definition mostly_success_table : DataFrame :=
  [ mkLaunch "SiteA" 1 500 "v1";
    mkLaunch "SiteA" 1 700 "v1";
    mkLaunch "SiteA" 0 600 "v2" ].

Definition failures_only_table : DataFrame :=
  [ mkLaunch "SiteA" 0 500 "v1";
    mkLaunch "SiteA" 0 700 "v1";
    mkLaunch "SiteB" 1 600 "v2" ].

Definition all_failures_table : DataFrame :=
  [ mkLaunch "SiteA" 0 500 "v1";
    mkLaunch "SiteB" 0 600 "v2" ].

(** ** Counting rows *)

Definition count_rows (p : LaunchRecord -> bool) (df : DataFrame) : Z :=
  Z.of_nat (List.length (filter p df)).

Definition at_site (s : string) (r : LaunchRecord) : bool :=
  String.eqb (launch_site r) s.

Definition has_class (c : Z) (r : LaunchRecord) : bool := class r =? c.

Definition binary_classes (df : DataFrame) : Prop :=
  forall r, In r df -> class r = 0 \/ class r = 1.

(** ** The rows and markers of the scatter chart *)

(** The row test the scatter callback applies in one or two steps. *)
Definition selected (s : string) (payload_range : Z * Z) (r : LaunchRecord) : bool :=
  (fst payload_range <=? payload_mass r) && (payload_mass r <=? snd payload_range)
  && (String.eqb s "ALL" || at_site s r).

(** The frame the callback hands to [px.scatter]. *)
Definition scatter_frame (s : string) (payload_range : Z * Z) (df : DataFrame)
    : DataFrame :=
  if String.eqb s "ALL" then payload_rows payload_range df
  else site_rows s (payload_rows payload_range df).

(** The marker the callback asks for at row [r]. *)
Definition marker_of (s : string) (r : LaunchRecord) : px.Point :=
  {| px.pt_x := payload_mass r; px.pt_y := class r;
     px.pt_color := booster_version_category r;
     px.pt_size := payload_mass r;
     px.pt_hover :=
       if String.eqb s "ALL" then [("Launch Site", launch_site r)] else [] |}.

(** Rows inside the payload window do not carry a negative payload.  The
    table invariant [payload >= 0] gives this for every window, and so
    does a window that starts at 0 or above. *)
Definition window_nonnegative (payload_range : Z * Z) (df : DataFrame) : Prop :=
  forall r, In r df ->
    fst payload_range <= payload_mass r <= snd payload_range ->
    0 <= payload_mass r.

(** What one marker shows of its row. *)
Definition marker_shows (s : string) (r : LaunchRecord) (p : px.Point) : Prop :=
  px.pt_x p = payload_mass r /\
  px.pt_y p = class r /\
  px.pt_color p = booster_version_category r /\
  px.pt_size p = payload_mass r /\
  (s = "ALL" -> px.pt_hover p = [("Launch Site", launch_site r)]) /\
  (s <> "ALL" -> px.pt_hover p = []).

(** One count and the single label "Success" at every site with
    failures only. *)
Definition failures_only_labelled_success : Prop :=
  forall (df : DataFrame) (s : string),
    s <> "ALL" ->
    (exists r, In r df /\ launch_site r = s) ->
    (forall r, In r df -> launch_site r = s -> class r = 0) ->
    List.length (pd.values (success_counts s df)) = 1%nat /\
    pie_names (success_counts s df) = ["Success"].

(** ** Further vocabulary *)

(** The payload test of the scatter callback alone. *)
Definition in_window (low high : Z) (r : LaunchRecord) : bool :=
  (low <=? payload_mass r) && (payload_mass r <=? high).

(** How many rows the scatter chart of a site shows (none when the
    callback raises). *)
Definition plotted_rows (s : string) (payload_range : Z * Z) (df : DataFrame) : Z :=
  match result_of (get_scatter_chart s payload_range) df with
  | Ok fig => Z.of_nat (List.length (px.sc_data fig))
  | Raise _ => 0
  end.

(** An array whose entries never increase. *)
Fixpoint descending (zs : list Z) : Prop :=
  match zs with
  | [] => True
  | a :: t => (forall b, In b t -> b <= a) /\ descending t
  end.

(** Every launch site is a non-empty string. *)
Definition named_sites (df : DataFrame) : Prop :=
  forall r, In r df -> launch_site r <> "".

(** The reading of C1 under test: classes 0 and 1 alone give every site
    a sector that holds its number of successes. *)
Definition every_site_has_a_success_sector : Prop :=
  forall df : DataFrame,
    binary_classes df ->
    exists fig,
      result_of (get_pie_chart "ALL") df = Ok fig /\
      forall S, In S (map launch_site df) ->
        px.sector_value S (px.sectors fig)
        = Some (count_rows (fun r => at_site S r && has_class 1 r) df).

(** ** Facts about the pandas model *)

Module pd_facts.






(** Counting a column that holds a single value [k]. *)
Lemma fold_bump_constant k xs : forall c,
  Forall (fun x => x = k) xs ->
  fold_left (fun a x => pd.bump x a) xs [(k, c)]
  = [(k, c + Z.of_nat (List.length xs))].
Proof.
  induction xs as [|x xs IH]; intros c Hall; simpl List.length; simpl fold_left.
  - f_equal. f_equal. lia.
  - inversion Hall as [|? ? Hx Hxs]; subst.
    rewrite Z.eqb_refl. rewrite IH by assumption.
    f_equal. f_equal. lia.
Qed.

Lemma value_counts_constant k x xs :
  Forall (fun y => y = k) (x :: xs) ->
  pd.value_counts (x :: xs) = [(k, Z.of_nat (List.length (x :: xs)))].
Proof.
  intros Hall. inversion Hall as [|? ? Hx Hxs]; subst.
  unfold pd.value_counts, pd.tally. simpl fold_left.
  rewrite fold_bump_constant by assumption.
  unfold pd.sort_values_desc, fold_right, pd.insert_desc.
  f_equal. f_equal. rewrite length_cons. lia.
Qed.

(** Two series or arrays that differ only by arithmetic on their entries. *)
Ltac series_eq :=
  repeat match goal with
         | |- _ :: _ = _ :: _ => f_equal
         | |- (_, _) = (_, _) => f_equal
         end;
  try reflexivity; try lia.

Lemma occurrences_cons k x xs :
  pd.occurrences k (x :: xs)
  = (if x =? k then 1 else 0) + pd.occurrences k xs.
Proof.
  unfold pd.occurrences. cbn [filter].
  destruct (x =? k); [rewrite length_cons|]; lia.
Qed.

Lemma occurrences_nonneg k xs : 0 <= pd.occurrences k xs.
Proof. unfold pd.occurrences. lia. Qed.

(** Counting a column over two values, both already seen. *)
Lemma fold_bump_two k k' xs : forall a b,
  k <> k' ->
  Forall (fun x => x = k \/ x = k') xs ->
  fold_left (fun s x => pd.bump x s) xs [(k, a); (k', b)]
  = [(k, a + pd.occurrences k xs); (k', b + pd.occurrences k' xs)].
Proof.
  induction xs as [|x xs IH]; intros a b Hne Hall.
  - unfold pd.occurrences. simpl. series_eq.
  - inversion Hall as [|? ? Hx Hxs]; subst.
    rewrite !occurrences_cons. cbn [fold_left pd.bump].
    destruct Hx as [-> | ->].
    + rewrite Z.eqb_refl. rewrite IH by assumption.
      apply Z.eqb_neq in Hne. rewrite Hne. series_eq.
    + assert (Hne' : k' <> k) by congruence.
      apply Z.eqb_neq in Hne'. rewrite Hne', Z.eqb_refl.
      rewrite IH by assumption. series_eq.
Qed.

(** Counting a column over two values when only [k] has been seen. *)
Lemma fold_bump_one k k' xs : forall a,
  k <> k' ->
  Forall (fun x => x = k \/ x = k') xs ->
  0 < pd.occurrences k' xs ->
  fold_left (fun s x => pd.bump x s) xs [(k, a)]
  = [(k, a + pd.occurrences k xs); (k', pd.occurrences k' xs)].
Proof.
  induction xs as [|x xs IH]; intros a Hne Hall Hpos.
  - unfold pd.occurrences in Hpos. simpl in Hpos. lia.
  - inversion Hall as [|? ? Hx Hxs]; subst.
    rewrite !occurrences_cons in *. cbn [fold_left pd.bump].
    destruct Hx as [-> | ->].
    + rewrite Z.eqb_refl in *.
      pose proof Hne as Hne'. apply Z.eqb_neq in Hne'. rewrite Hne' in *.
      rewrite IH by (assumption || lia). series_eq.
    + assert (Hne' : k' <> k) by congruence.
      apply Z.eqb_neq in Hne'. rewrite Hne', Z.eqb_refl.
      rewrite fold_bump_two by assumption. series_eq.
Qed.

(** [value_counts] of a column over two values, both present: the
    larger count comes first. *)
Lemma value_counts_two_values k k' xs :
  k <> k' ->
  Forall (fun x => x = k \/ x = k') xs ->
  0 < pd.occurrences k xs -> 0 < pd.occurrences k' xs ->
  pd.values (pd.value_counts xs)
  = [Z.max (pd.occurrences k xs) (pd.occurrences k' xs);
     Z.min (pd.occurrences k xs) (pd.occurrences k' xs)] /\
  (pd.contains k (pd.index (pd.value_counts xs)) = true /\
   pd.contains k' (pd.index (pd.value_counts xs)) = true).
Proof.
  intros Hne Hall Hk Hk'.
  assert (Hne' : k' <> k) by congruence.
  assert (Hall' : Forall (fun x => x = k' \/ x = k) xs).
  { eapply Forall_impl; [|exact Hall]. simpl. tauto. }
  assert (Hshape :
    pd.tally xs = [(k, pd.occurrences k xs); (k', pd.occurrences k' xs)] \/
    pd.tally xs = [(k', pd.occurrences k' xs); (k, pd.occurrences k xs)]).
  { destruct xs as [|x xs]; [unfold pd.occurrences in Hk; simpl in Hk; lia|].
    inversion Hall as [|? ? Hx Hxs]; subst.
    inversion Hall' as [|? ? _ Hxs']; subst.
    unfold pd.tally. cbn [fold_left pd.bump].
    rewrite !occurrences_cons in *.
    destruct Hx as [-> | ->].
    - left. rewrite Z.eqb_refl in *.
      pose proof Hne as E. apply Z.eqb_neq in E. rewrite E in *.
      rewrite (fold_bump_one k k') by (assumption || lia).
      series_eq.
    - right. rewrite Z.eqb_refl in *.
      pose proof Hne' as E. apply Z.eqb_neq in E. rewrite E in *.
      rewrite (fold_bump_one k' k) by (assumption || lia).
      series_eq. }
  unfold pd.value_counts, pd.contains, pd.index, pd.values.
  destruct Hshape as [-> | ->]; cbn [pd.sort_values_desc fold_right pd.insert_desc snd];
    match goal with |- context [?a <? ?b] => destruct (Z.ltb_spec a b) end;
    cbn [map fst snd existsb]; rewrite !Z.eqb_refl, ?orb_true_r; cbn [orb];
    (split; [series_eq | split; reflexivity]).
Qed.

End pd_facts.

(** ** Facts about pie sectors *)

Module px_facts.

Lemma sector_value_absent l ss :
  px.sector_value l ss = None <-> ~ In l (map fst ss).
Proof.
  induction ss as [|[l' v] t IH]; simpl.
  - tauto.
  - destruct (String.eqb l l') eqn:E.
    + apply String.eqb_eq in E. subst. split; [discriminate | tauto].
    + apply String.eqb_neq in E. rewrite IH. split.
      * intros H [H1 | H1]; [congruence | tauto].
      * tauto.
Qed.

Lemma sector_value_present l ss :
  In l (map fst ss) -> px.sector_value l ss = Some (px.sector_total l ss).
Proof.
  intros Hin. unfold px.sector_total.
  destruct (px.sector_value l ss) eqn:E; [reflexivity|].
  apply sector_value_absent in E. contradiction.
Qed.

Lemma labels_add_sector l v acc k :
  In k (map fst (px.add_sector l v acc)) <-> k = l \/ In k (map fst acc).
Proof.
  induction acc as [|[l' v'] t IH]; simpl.
  - intuition congruence.
  - destruct (String.eqb l l') eqn:E; simpl.
    + apply String.eqb_eq in E. subst. intuition congruence.
    + rewrite IH. intuition congruence.
Qed.

Lemma NoDup_add_sector l v acc :
  NoDup (map fst acc) -> NoDup (map fst (px.add_sector l v acc)).
Proof.
  induction acc as [|[l' v'] t IH]; simpl; intros Hnd.
  - constructor; [simpl; tauto | constructor].
  - inversion Hnd as [|? ? Hnotin Hnd']; subst.
    destruct (String.eqb l l') eqn:E; simpl.
    + constructor; assumption.
    + apply String.eqb_neq in E. constructor.
      * rewrite labels_add_sector. intros [H | H]; [congruence | contradiction].
      * apply IH; assumption.
Qed.

Lemma total_add_sector l v acc k :
  px.sector_total k (px.add_sector l v acc)
  = px.sector_total k acc + (if String.eqb k l then v else 0).
Proof.
  unfold px.sector_total.
  induction acc as [|[l' v'] t IH]; simpl.
  - destruct (String.eqb k l); lia.
  - destruct (String.eqb l l') eqn:E; simpl.
    + apply String.eqb_eq in E. subst l'.
      destruct (String.eqb k l); lia.
    + destruct (String.eqb k l') eqn:E'.
      * apply String.eqb_eq in E'. subst l'.
        rewrite String.eqb_sym, E. lia.
      * exact IH.
Qed.

Lemma labels_sectors_of rows : forall acc k,
  In k (map fst (px.sectors_of rows acc))
  <-> In k (map fst rows) \/ In k (map fst acc).
Proof.
  unfold px.sectors_of.
  induction rows as [|[l v] t IH]; intros acc k; simpl.
  - tauto.
  - rewrite IH, labels_add_sector. intuition congruence.
Qed.

Lemma NoDup_sectors_of rows : forall acc,
  NoDup (map fst acc) -> NoDup (map fst (px.sectors_of rows acc)).
Proof.
  unfold px.sectors_of.
  induction rows as [|[l v] t IH]; intros acc Hnd; simpl.
  - assumption.
  - apply IH, NoDup_add_sector, Hnd.
Qed.

Lemma total_sectors_of rows : forall acc k,
  px.sector_total k (px.sectors_of rows acc) = px.sector_total k acc + px.label_sum k rows.
Proof.
  unfold px.sectors_of.
  induction rows as [|[l v] t IH]; intros acc k; simpl.
  - lia.
  - rewrite IH, total_add_sector. lia.
Qed.

End px_facts.

Lemma label_sum_site_class s df :
  binary_classes df ->
  px.label_sum s (combine (map launch_site df) (map class df))
  = count_rows (fun r => at_site s r && has_class 1 r) df.
Proof.
  unfold count_rows, at_site, has_class.
  induction df as [|r df IH]; intros Hbin.
  - reflexivity.
  - assert (Hr : class r = 0 \/ class r = 1) by (apply Hbin; left; reflexivity).
    assert (Hbin' : binary_classes df) by (intros r' Hr'; apply Hbin; right; exact Hr').
    specialize (IH Hbin').
    cbn [map combine px.label_sum filter].
    rewrite IH. rewrite (String.eqb_sym s (launch_site r)).
    destruct (String.eqb (launch_site r) s); cbn [andb].
    + destruct Hr as [Hr | Hr]; rewrite Hr.
      * change (0 =? 1) with false. cbv iota. lia.
      * change (1 =? 1) with true. cbv iota. rewrite length_cons. lia.
    + lia.
Qed.

Lemma count_rows_le p q df :
  (forall r, p r = true -> q r = true) -> count_rows p df <= count_rows q df.
Proof.
  intros Himp. unfold count_rows. apply inj_le.
  induction df as [|r df IH]; simpl; [lia|].
  destruct (p r) eqn:Ep.
  - rewrite (Himp r Ep). simpl. lia.
  - destruct (q r); simpl; lia.
Qed.

Lemma run_get_pie_chart_all df :
  get_pie_chart "ALL" df
  = (Ok (pie_update_layout
           {| px.pie_labels := map launch_site df;
              px.pie_values := map class df;
              px.pie_title := "Total Success Launches By Site";
              px.pie_colors := px.Set3;
              px.pie_layout := px.default_layout |}), df).
Proof. reflexivity. Qed.

Lemma run_get_pie_chart_site s df :
  s <> "ALL" ->
  get_pie_chart s df
  = (match px.pie (pd.values (success_counts s df))
                  (pie_names (success_counts s df))
                  ("Total Success Launches for site " ++ s)
                  (px.Colors ["#ff7f7f"; "#7fbf7f"]) with
     | Ok fig => Ok (pie_update_layout fig)
     | Raise e => Raise e
     end, df).
Proof.
  intros Hs. apply String.eqb_neq in Hs.
  unfold get_pie_chart, bind, read_spacex_df, lift, ret.
  rewrite Hs.
  destruct (px.pie _ _ _ _); reflexivity.
Qed.

Lemma filter_filter {A} (p q : A -> bool) (l : list A) :
  filter q (filter p l) = filter (fun a => p a && q a) l.
Proof.
  induction l as [|a l IH]; simpl; [reflexivity|].
  destruct (p a); simpl; [destruct (q a)|]; rewrite IH; reflexivity.
Qed.

Lemma scatter_frame_selected s payload_range df :
  scatter_frame s payload_range df = filter (selected s payload_range) df.
Proof.
  destruct payload_range as [low high].
  unfold scatter_frame, site_rows, payload_rows, pd.select, selected, at_site.
  destruct (String.eqb s "ALL"); [|rewrite filter_filter];
    apply filter_ext; intros r; cbn [fst snd];
    rewrite Z.geb_leb; cbn [orb]; rewrite ?andb_true_r; reflexivity.
Qed.

Lemma selected_spec s low high r :
  selected s (low, high) r = true
  <-> low <= payload_mass r <= high /\ (s <> "ALL" -> launch_site r = s).
Proof.
  unfold selected, at_site. cbn [fst snd].
  rewrite !andb_true_iff, orb_true_iff, !Z.leb_le, !String.eqb_eq.
  split.
  - intros [Hw [Hs | Hs]]; split; try assumption; intros Hne; congruence.
  - intros [Hw Hs]. split; [assumption|].
    destruct (string_dec s "ALL") as [E | E]; [left; exact E | right; exact (Hs E)].
Qed.

Lemma run_get_scatter_chart s payload_range df :
  forallb (fun r => 0 <=? payload_mass r) (scatter_frame s payload_range df) = true ->
  exists fig,
    get_scatter_chart s payload_range df = (Ok fig, df) /\
    px.sc_data fig = scatter_frame s payload_range df /\
    px.sc_points fig = map (marker_of s) (scatter_frame s payload_range df).
Proof.
  unfold scatter_frame, marker_of.
  unfold get_scatter_chart, bind, read_spacex_df, lift, ret.
  destruct (String.eqb s "ALL"); intros Hsizes; unfold px.scatter; rewrite Hsizes;
    eexists; (split; [reflexivity|]); split; reflexivity.
Qed.

Lemma table_after_get_scatter_chart s payload_range df :
  table_after (get_scatter_chart s payload_range) df = df.
Proof.
  unfold table_after, get_scatter_chart, bind, read_spacex_df, lift, ret.
  destruct (String.eqb s "ALL");
    match goal with |- context [px.scatter ?a ?b ?c ?d ?e ?f ?g ?h] =>
      destruct (px.scatter a b c d e f g h) end; reflexivity.
Qed.

Lemma table_after_get_pie_chart s df :
  table_after (get_pie_chart s) df = df.
Proof.
  unfold table_after, get_pie_chart, bind, read_spacex_df, lift, ret.
  destruct (String.eqb s "ALL"); [reflexivity|].
  destruct (px.pie _ _ _ _); reflexivity.
Qed.

(** A site that no row carries has no counts, so the label list (one
    entry) and the count array (none) disagree in length. *)
Lemma pie_unknown_site_raises s df :
  s <> "ALL" -> ~ In s (map launch_site df) ->
  result_of (get_pie_chart s) df = Raise ValueError.
Proof.
  intros Hs Hnotin. unfold result_of. rewrite run_get_pie_chart_site by assumption.
  assert (Hrows : site_rows s df = []).
  { unfold site_rows, pd.select.
    induction df as [|r df IH]; [reflexivity|]. simpl in *.
    destruct (String.eqb (launch_site r) s) eqn:E.
    - apply String.eqb_eq in E. tauto.
    - apply IH. tauto. }
  unfold success_counts. rewrite Hrows. reflexivity.
Qed.

Lemma combine_map_fst_of_columns {A B C} (f : A -> B) (g : A -> C) (l : list A) :
  map fst (combine (map f l) (map g l)) = map f l.
Proof.
  induction l as [|a l IH]; simpl; [reflexivity|].
  rewrite IH. reflexivity.
Qed.

(** * The pie chart *)

Lemma filter_all {A} (p : A -> bool) (l : list A) :
  (forall a, In a l -> p a = true) -> filter p l = l.
Proof.
  induction l as [|a l IH]; intros Hall; simpl; [reflexivity|].
  rewrite (Hall a) by (left; reflexivity).
  rewrite IH; [reflexivity|]. intros b Hb. apply Hall. right. exact Hb.
Qed.

Lemma combine_map_snd_of_columns {A B C} (f : A -> B) (g : A -> C) (l : list A) :
  map snd (combine (map f l) (map g l)) = map g l.
Proof.
  induction l as [|a l IH]; simpl; [reflexivity|].
  rewrite IH. reflexivity.
Qed.

(** ** From the two arrays to the sectors *)

Module sector_facts.

Lemma position_labels_named ls : forall i,
  Forall (fun l => l <> "") ls -> px.position_labels i ls = ls.
Proof.
  induction ls as [|l ls IH]; intros i Hall; [reflexivity|].
  inversion Hall as [|? ? Hl Hls]; subst. cbn [px.position_labels].
  rewrite IH by assumption. unfold px.sector_label.
  apply String.eqb_neq in Hl. rewrite Hl. reflexivity.
Qed.

Lemma length_position_labels ls : forall i,
  List.length (px.position_labels i ls) = List.length ls.
Proof.
  induction ls as [|l ls IH]; intros i; [reflexivity|].
  cbn [px.position_labels List.length]. rewrite IH. reflexivity.
Qed.

Lemma map_snd_combine {A B} (ls : list A) : forall (vs : list B),
  List.length ls = List.length vs -> map snd (combine ls vs) = vs.
Proof.
  induction ls as [|l ls IH]; intros [|v vs] Hlen; try discriminate; [reflexivity|].
  simpl. rewrite IH; [reflexivity|]. simpl in Hlen. lia.
Qed.

Lemma nonneg_add_sector l v acc :
  0 <= v ->
  Forall (fun s => 0 <= snd s) acc ->
  Forall (fun s => 0 <= snd s) (px.add_sector l v acc).
Proof.
  intros Hv. induction acc as [|[l' v'] t IH]; intros Hacc; simpl.
  - constructor; [exact Hv | constructor].
  - inversion Hacc as [|? ? Hh Ht]; subst. simpl in Hh.
    destruct (String.eqb l l').
    + constructor; [simpl; lia | exact Ht].
    + constructor; [exact Hh | apply IH; exact Ht].
Qed.

Lemma nonneg_sectors_of rows : forall acc,
  Forall (fun lv => 0 <= snd lv) rows ->
  Forall (fun s => 0 <= snd s) acc ->
  Forall (fun s => 0 <= snd s) (px.sectors_of rows acc).
Proof.
  unfold px.sectors_of.
  induction rows as [|[l v] t IH]; intros acc Hrows Hacc; simpl; [exact Hacc|].
  inversion Hrows as [|? ? Hv Ht]; subst.
  apply IH; [exact Ht | apply nonneg_add_sector; assumption].
Qed.

Lemma insert_sector_perm e ss : Permutation (px.insert_sector e ss) (e :: ss).
Proof.
  induction ss as [|h t IH]; simpl; [apply Permutation_refl|].
  destruct (snd e <? snd h); [|apply Permutation_refl].
  rewrite IH. apply perm_swap.
Qed.

Lemma sort_sectors_perm ss : Permutation (px.sort_sectors ss) ss.
Proof.
  induction ss as [|h t IH]; simpl; [constructor|].
  rewrite insert_sector_perm. constructor. exact IH.
Qed.

(** With distinct labels, a sector is in the list exactly when looking
    its label up gives its value. *)
Lemma In_sector_value l v ss :
  NoDup (map fst ss) -> (In (l, v) ss <-> px.sector_value l ss = Some v).
Proof.
  induction ss as [|[l' v'] t IH]; simpl; intros Hnd.
  - split; [tauto | discriminate].
  - inversion Hnd as [|? ? Hnotin Hnd']; subst.
    destruct (String.eqb l l') eqn:E.
    + apply String.eqb_eq in E. subst l'. split.
      * intros [H | H]; [congruence|].
        exfalso. apply Hnotin. apply in_map_iff. exists (l, v). split; [reflexivity | exact H].
      * intros H. left. congruence.
    + apply String.eqb_neq in E. rewrite <- IH by assumption. split.
      * intros [H | H]; [congruence | exact H].
      * tauto.
Qed.

Lemma sector_value_perm l ss ss' :
  Permutation ss ss' -> NoDup (map fst ss) ->
  px.sector_value l ss' = px.sector_value l ss.
Proof.
  intros Hperm Hnd.
  assert (Hnd' : NoDup (map fst ss')).
  { eapply Permutation_NoDup; [|exact Hnd]. apply Permutation_map. exact Hperm. }
  destruct (px.sector_value l ss) as [v|] eqn:E.
  - apply In_sector_value in E; [|exact Hnd].
    apply In_sector_value; [exact Hnd'|].
    eapply Permutation_in; [exact Hperm | exact E].
  - apply px_facts.sector_value_absent in E.
    apply px_facts.sector_value_absent. intros Hin. apply E.
    eapply Permutation_in; [|exact Hin].
    apply Permutation_map, Permutation_sym. exact Hperm.
Qed.

Lemma total_perm (l l' : list Z) :
  Permutation l l' -> pd.total l = pd.total l'.
Proof.
  unfold pd.total. induction 1; simpl; lia.
Qed.

Lemma has_positive_binary df :
  binary_classes df ->
  existsb (fun v => 0 <? v) (map class df) = existsb (has_class 1) df.
Proof.
  induction df as [|r df IH]; intros Hbin; [reflexivity|].
  assert (Hr : class r = 0 \/ class r = 1) by (apply Hbin; left; reflexivity).
  cbn [map existsb]. rewrite IH by (intros r' Hr'; apply Hbin; right; exact Hr').
  unfold has_class. destruct Hr as [-> | ->]; reflexivity.
Qed.

Lemma nonneg_binary_rows (ls : list string) df :
  binary_classes df ->
  Forall (fun lv : string * Z => 0 <= snd lv) (combine ls (map class df)).
Proof.
  intros Hbin. apply Forall_forall. intros [l v] Hin.
  apply in_combine_r in Hin. apply in_map_iff in Hin.
  destruct Hin as [r [<- Hr]]. simpl. destruct (Hbin r Hr) as [-> | ->]; lia.
Qed.

(** On classes 0 and 1 no sector is dropped for a negative sum: the
    sectors are the per-label sums, ordered, or none at all when no row
    has class 1. *)
Lemma sectors_from_binary (ls : list string) df :
  binary_classes df ->
  List.length ls = List.length df ->
  px.sectors_from ls (map class df)
  = if existsb (has_class 1) df
    then px.sort_sectors
           (px.sectors_of (combine (px.position_labels 0 ls) (map class df)) [])
    else [].
Proof.
  intros Hbin Hlen. unfold px.sectors_from.
  rewrite map_snd_combine
    by (rewrite length_position_labels, length_map; exact Hlen).
  rewrite has_positive_binary by assumption.
  destruct (existsb (has_class 1) df); [|reflexivity].
  f_equal. apply filter_all. intros s Hs. apply Z.leb_le.
  revert s Hs. apply Forall_forall.
  apply nonneg_sectors_of; [apply nonneg_binary_rows; exact Hbin | constructor].
Qed.

End sector_facts.

(** C1.  On a table of named sites whose classes are all 0 or 1 and
    which has at least one row of class 1, the pie chart for ["ALL"] has
    exactly one sector per distinct launch site, and the sector of site
    [S] has the number of rows of [S] with class 1 as its value (at most
    the number of rows of [S]).  When no row has class 1 the chart has no
    sector at all. *)
Theorem pie_all_counts_successes_per_site (df : DataFrame) :
  binary_classes df ->
  named_sites df ->
  exists fig,
    result_of (get_pie_chart "ALL") df = Ok fig /\
    ((exists r, In r df /\ class r = 1) ->
     NoDup (map fst (px.sectors fig)) /\
     (forall S, In S (map fst (px.sectors fig)) <-> In S (map launch_site df)) /\
     (forall S, In S (map launch_site df) ->
        px.sector_value S (px.sectors fig)
        = Some (count_rows (fun r => at_site S r && has_class 1 r) df) /\
        count_rows (fun r => at_site S r && has_class 1 r) df
        <= count_rows (at_site S) df)) /\
    ((forall r, In r df -> class r <> 1) -> px.sectors fig = []).
Proof.
  intros Hbin Hnamed. unfold result_of. rewrite run_get_pie_chart_all.
  eexists. split; [reflexivity|].
  unfold px.sectors. cbn [pie_update_layout px.pie_labels px.pie_values].
  rewrite sector_facts.sectors_from_binary
    by (assumption || (rewrite length_map; reflexivity)).
  rewrite sector_facts.position_labels_named.
  2:{ apply Forall_forall. intros l Hl. apply in_map_iff in Hl.
      destruct Hl as [r [<- Hr]]. apply Hnamed. exact Hr. }
  set (sums := px.sectors_of (combine (map launch_site df) (map class df)) []).
  assert (Hnd : NoDup (map fst sums)).
  { apply px_facts.NoDup_sectors_of. constructor. }
  assert (Hlabels : forall S, In S (map fst sums) <-> In S (map launch_site df)).
  { intros S. unfold sums. rewrite px_facts.labels_sectors_of.
    rewrite combine_map_fst_of_columns. simpl. tauto. }
  split.
  - intros [r [Hr Hone]].
    assert (Hsome : existsb (has_class 1) df = true).
    { apply existsb_exists. exists r. split; [exact Hr|].
      unfold has_class. apply Z.eqb_eq. exact Hone. }
    rewrite Hsome.
    pose proof (sector_facts.sort_sectors_perm sums) as Hperm.
    split.
    { eapply Permutation_NoDup; [|exact Hnd].
      apply Permutation_map, Permutation_sym. exact Hperm. }
    split.
    { intros S. rewrite <- Hlabels. split; apply Permutation_in;
        apply Permutation_map; [|apply Permutation_sym]; exact Hperm. }
    intros S HS. split.
    + rewrite (sector_facts.sector_value_perm S sums)
        by (apply Permutation_sym, Hperm || exact Hnd).
      rewrite px_facts.sector_value_present by (apply Hlabels; exact HS).
      unfold sums.
      rewrite px_facts.total_sectors_of, label_sum_site_class by assumption.
      reflexivity.
    + apply count_rows_le. intros r' Hr'.
      apply andb_true_iff in Hr'. tauto.
  - intros Hnone.
    assert (Hsome : existsb (has_class 1) df = false).
    { apply not_true_is_false. intros H. apply existsb_exists in H.
      destruct H as [r [Hr Hone]]. apply (Hnone r Hr).
      unfold has_class in Hone. apply Z.eqb_eq. exact Hone. }
    rewrite Hsome. reflexivity.
Qed.

Lemma pie_all_counts_successes_per_site_witness :
  exists fig,
    result_of (get_pie_chart "ALL") sample_table = Ok fig /\
    ((exists r, In r sample_table /\ class r = 1) ->
     NoDup (map fst (px.sectors fig)) /\
     (forall S, In S (map fst (px.sectors fig))
                <-> In S (map launch_site sample_table)) /\
     (forall S, In S (map launch_site sample_table) ->
        px.sector_value S (px.sectors fig)
        = Some (count_rows (fun r => at_site S r && has_class 1 r) sample_table) /\
        count_rows (fun r => at_site S r && has_class 1 r) sample_table
        <= count_rows (at_site S) sample_table)) /\
    ((forall r, In r sample_table -> class r <> 1) -> px.sectors fig = []).
Proof.
  apply (pie_all_counts_successes_per_site sample_table).
  - intros r Hr. simpl in Hr.
    destruct Hr as [<- | [<- | [<- | []]]]; simpl; lia.
  - intros r Hr. simpl in Hr.
    destruct Hr as [<- | [<- | [<- | []]]]; discriminate.
Defined.

(** C1, as stated, fails: every class of [all_failures_table] is 0, yet
    the chart has no sector for "SiteA". *)
Lemma every_site_has_a_success_sector_fails :
  ~ every_site_has_a_success_sector.
Proof.
  intros H.
  destruct (H all_failures_table) as [fig [Hfig Hsector]].
  - intros r Hr. simpl in Hr.
    destruct Hr as [<- | [<- | []]]; left; reflexivity.
  - unfold result_of in Hfig. rewrite run_get_pie_chart_all in Hfig.
    injection Hfig as <-.
    specialize (Hsector "SiteA" ltac:(left; reflexivity)).
    discriminate Hsector.
Qed.

(** Rows without a site name are counted under their positions, one
    sector each. *)
Example unnamed_sites_get_position_sectors :
  px.sectors_from [""; ""; "SiteA"] [1; 1; 1]
  = [("0", 1); ("1", 1); ("SiteA", 1)].
Proof. reflexivity. Qed.

Lemma occurrences_site_class s c df :
  pd.occurrences c (map class (site_rows s df))
  = count_rows (fun r => at_site s r && has_class c r) df.
Proof.
  unfold pd.occurrences, count_rows, site_rows, pd.select, at_site, has_class.
  induction df as [|r df IH]; [reflexivity|].
  cbn [filter map].
  destruct (String.eqb (launch_site r) s); cbn [filter map andb].
  - destruct (class r =? c); [rewrite !length_cons|]; lia.
  - exact IH.
Qed.

(** Where both classes occur at a site, the chart is built, its labels
    are ["Failed"; "Success"], and its values are the two class counts
    with the larger one first. *)
Lemma pie_both_classes_larger_count_first (df : DataFrame) (s : string) :
  s <> "ALL" ->
  binary_classes df ->
  0 < count_rows (fun r => at_site s r && has_class 0 r) df ->
  0 < count_rows (fun r => at_site s r && has_class 1 r) df ->
  exists fig,
    result_of (get_pie_chart s) df = Ok fig /\
    px.pie_labels fig = ["Failed"; "Success"] /\
    px.pie_values fig
    = [Z.max (count_rows (fun r => at_site s r && has_class 0 r) df)
             (count_rows (fun r => at_site s r && has_class 1 r) df);
       Z.min (count_rows (fun r => at_site s r && has_class 0 r) df)
             (count_rows (fun r => at_site s r && has_class 1 r) df)].
Proof.
  intros Hs Hbin H0 H1.
  rewrite <- !occurrences_site_class in *.
  assert (Hall : Forall (fun x => x = 0 \/ x = 1) (map class (site_rows s df))).
  { apply Forall_forall. intros c Hc. apply in_map_iff in Hc.
    destruct Hc as [r [<- Hr]]. apply Hbin.
    unfold site_rows, pd.select in Hr. apply filter_In in Hr. tauto. }
  destruct (pd_facts.value_counts_two_values 0 1 _ ltac:(lia) Hall H0 H1)
    as [Hvalues [Hzero _]].
  unfold result_of. rewrite run_get_pie_chart_site by assumption.
  unfold pie_names, success_counts. rewrite Hzero, Hvalues.
  eexists. split; [reflexivity|]. split; reflexivity.
Qed.

(** C2.  At a site where successes outnumber failures the count array
    starts with the success count: the labels are ["Failed"; "Success"]
    but the values under them are the counts of class 1 and class 0, in
    that order. *)
Theorem pie_site_counts_ordered_by_frequency :
  exists fig,
    result_of (get_pie_chart "SiteA") mostly_success_table = Ok fig /\
    px.pie_labels fig = ["Failed"; "Success"] /\
    px.pie_values fig = [2; 1] /\
    count_rows (fun r => at_site "SiteA" r && has_class 0 r) mostly_success_table = 1 /\
    count_rows (fun r => at_site "SiteA" r && has_class 1 r) mostly_success_table = 2.
Proof.
  eexists. split; [reflexivity|]. repeat split.
Qed.

(** Rows of one site, all of one class: the class column of the site's
    rows is constant. *)
Lemma site_rows_constant_class s k df :
  (forall r, In r df -> launch_site r = s -> class r = k) ->
  Forall (fun c => c = k) (map class (site_rows s df)).
Proof.
  intros Hk. apply Forall_forall. intros c Hc.
  apply in_map_iff in Hc. destruct Hc as [r [<- Hr]].
  unfold site_rows, pd.select in Hr. apply filter_In in Hr.
  destruct Hr as [Hin Hs]. apply String.eqb_eq in Hs. apply Hk; assumption.
Qed.

Lemma site_rows_nonempty s df :
  (exists r, In r df /\ launch_site r = s) -> site_rows s df <> [].
Proof.
  intros [r [Hin Hs]] Hnil.
  assert (Hr : In r (site_rows s df)).
  { unfold site_rows, pd.select. apply filter_In. split; [assumption|].
    apply String.eqb_eq. assumption. }
  rewrite Hnil in Hr. exact Hr.
Qed.

(** At site "SiteA" of [failures_only_table], where only class 0
    occurs, the label list is not ["Success"]. *)
Lemma failures_only_labelled_success_fails :
  ~ failures_only_labelled_success.
Proof.
  intros H.
  destruct (H failures_only_table "SiteA") as [_ Hnames].
  - discriminate.
  - exists (mkLaunch "SiteA" 0 500 "v1"). split; [left|]; reflexivity.
  - intros r Hr Hs. simpl in Hr.
    destruct Hr as [<- | [<- | [<- | []]]]; try reflexivity; discriminate.
  - discriminate.
Qed.

(** C3.  At a site other than ["ALL"] where only class 0 occurs, the
    count array has exactly one entry, the number of rows of the site,
    but the label list is ["Failed"; "Success"], of length two, because
    class 0 is in the index of the counts; the two lengths differ and the
    callback raises instead of returning the one-sector chart. *)
Theorem pie_failures_only_site (df : DataFrame) (s : string) :
  s <> "ALL" ->
  (exists r, In r df /\ launch_site r = s) ->
  (forall r, In r df -> launch_site r = s -> class r = 0) ->
  pd.values (success_counts s df) = [count_rows (at_site s) df] /\
  pie_names (success_counts s df) = ["Failed"; "Success"] /\
  result_of (get_pie_chart s) df = Raise ValueError.
Proof.
  intros Hs Hex Hzero.
  assert (Hcounts : success_counts s df = [(0, count_rows (at_site s) df)]).
  { unfold success_counts, count_rows, at_site.
    pose proof (site_rows_constant_class s 0 df Hzero) as Hconst.
    pose proof (site_rows_nonempty s df Hex) as Hne.
    unfold site_rows, pd.select in *.
    destruct (filter (fun r => String.eqb (launch_site r) s) df) as [|r rows] eqn:E;
      [congruence|].
    cbn [map] in *. rewrite (pd_facts.value_counts_constant 0) by assumption.
    rewrite !length_cons, length_map. reflexivity. }
  unfold result_of. rewrite run_get_pie_chart_site by assumption.
  rewrite Hcounts. repeat split.
Qed.

Lemma pie_failures_only_site_witness :
  pd.values (success_counts "SiteA" failures_only_table)
  = [count_rows (at_site "SiteA") failures_only_table] /\
  pie_names (success_counts "SiteA" failures_only_table) = ["Failed"; "Success"] /\
  result_of (get_pie_chart "SiteA") failures_only_table = Raise ValueError.
Proof.
  apply (pie_failures_only_site failures_only_table "SiteA").
  - discriminate.
  - exists (mkLaunch "SiteA" 0 500 "v1"). split; [left|]; reflexivity.
  - intros r Hr Hs. simpl in Hr.
    destruct Hr as [<- | [<- | [<- | []]]]; try reflexivity; discriminate.
Defined.

(** C6.  A site that is in no row: the scatter callback returns a chart
    without rows, the pie callback raises. *)
Theorem unknown_site_pie_raises_scatter_empty :
  ~ In "SiteC" (map launch_site sample_table) /\
  result_of (get_pie_chart "SiteC") sample_table = Raise ValueError /\
  exists fig,
    result_of (get_scatter_chart "SiteC" (0, 10000)) sample_table = Ok fig /\
    px.sc_data fig = [] /\ px.sc_points fig = [].
Proof.
  split.
  - simpl. intros [H | [H | [H | []]]]; discriminate.
  - split; [reflexivity|]. eexists. split; [reflexivity|]. split; reflexivity.
Qed.



(** * The scatter chart *)

Lemma window_nonnegative_sizes s payload_range df :
  window_nonnegative payload_range df ->
  forallb (fun r => 0 <=? payload_mass r) (scatter_frame s payload_range df) = true.
Proof.
  intros Hwin. rewrite scatter_frame_selected.
  apply forallb_forall. intros r Hr. apply filter_In in Hr.
  destruct Hr as [Hin Hsel]. destruct payload_range as [low high].
  apply selected_spec in Hsel. apply Z.leb_le.
  apply (Hwin r Hin). cbn [fst snd]. tauto.
Qed.

(** C4.  The scatter chart is built from exactly the rows whose payload
    lies in [low, high], both ends included, restricted to the rows of
    the site when the site is not ["ALL"]; rows keep their order and
    multiplicity, and no other row appears. *)
Theorem scatter_rows_are_the_selected_rows
    (df : DataFrame) (s : string) (low high : Z) :
  window_nonnegative (low, high) df ->
  exists fig,
    result_of (get_scatter_chart s (low, high)) df = Ok fig /\
    px.sc_data fig = filter (selected s (low, high)) df /\
    (forall r, In r (px.sc_data fig) <->
       In r df /\ low <= payload_mass r <= high /\
       (s <> "ALL" -> launch_site r = s)).
Proof.
  intros Hwin.
  destruct (run_get_scatter_chart s (low, high) df
              (window_nonnegative_sizes s _ df Hwin)) as [fig [Hrun [Hdata _]]].
  exists fig. unfold result_of. rewrite Hrun.
  rewrite scatter_frame_selected in Hdata.
  split; [reflexivity|]. split; [exact Hdata|].
  intros r. rewrite Hdata, filter_In, selected_spec. tauto.
Qed.

Lemma scatter_rows_are_the_selected_rows_witness :
  exists fig,
    result_of (get_scatter_chart "SiteA" (600, 700)) sample_table = Ok fig /\
    px.sc_data fig = filter (selected "SiteA" (600, 700)) sample_table /\
    (forall r, In r (px.sc_data fig) <->
       In r sample_table /\ 600 <= payload_mass r <= 700 /\
       ("SiteA" <> "ALL" -> launch_site r = "SiteA")).
Proof.
  apply (scatter_rows_are_the_selected_rows sample_table "SiteA" 600 700).
  intros r Hr _. simpl in Hr.
  destruct Hr as [<- | [<- | [<- | []]]]; simpl; lia.
Defined.

(** C5.  With [low > high] the scatter callback returns a chart with no
    rows and no markers; it does not raise, whatever the table and the
    site. *)
Theorem scatter_inverted_range_is_empty
    (df : DataFrame) (s : string) (low high : Z) :
  low > high ->
  exists fig,
    result_of (get_scatter_chart s (low, high)) df = Ok fig /\
    px.sc_data fig = [] /\ px.sc_points fig = [].
Proof.
  intros Hinv.
  assert (Hwin : window_nonnegative (low, high) df).
  { intros r _ Hr. cbn [fst snd] in Hr. lia. }
  assert (Hempty : scatter_frame s (low, high) df = []).
  { rewrite scatter_frame_selected.
    induction df as [|r df IH]; [reflexivity|]. simpl.
    destruct (selected s (low, high) r) eqn:E.
    - apply selected_spec in E. lia.
    - apply IH. intros r' Hr'. apply Hwin. right. exact Hr'. }
  destruct (run_get_scatter_chart s (low, high) df
              (window_nonnegative_sizes s _ df Hwin)) as [fig [Hrun [Hdata Hpts]]].
  exists fig. unfold result_of. rewrite Hrun, Hdata, Hpts, Hempty.
  repeat split.
Qed.

Lemma scatter_inverted_range_is_empty_witness :
  exists fig,
    result_of (get_scatter_chart "ALL" (700, 500)) sample_table = Ok fig /\
    px.sc_data fig = [] /\ px.sc_points fig = [].
Proof.
  apply (scatter_inverted_range_is_empty sample_table "ALL" 700 500).
  lia.
Defined.

(** C9.  The markers of the scatter chart correspond one to one, in
    order, to the selected rows; each has the payload as x, the class as
    y, the booster version category as colour and the payload as size.
    The launch site is an extra hover column for ["ALL"] and is absent
    for a single site. *)
Theorem scatter_markers_encode_rows
    (df : DataFrame) (s : string) (low high : Z) :
  window_nonnegative (low, high) df ->
  exists fig,
    result_of (get_scatter_chart s (low, high)) df = Ok fig /\
    Forall2 (marker_shows s) (filter (selected s (low, high)) df) (px.sc_points fig).
Proof.
  intros Hwin.
  destruct (run_get_scatter_chart s (low, high) df
              (window_nonnegative_sizes s _ df Hwin)) as [fig [Hrun [_ Hpts]]].
  exists fig. unfold result_of. rewrite Hrun. split; [reflexivity|].
  rewrite Hpts, scatter_frame_selected.
  induction (filter (selected s (low, high)) df) as [|r rows IH]; simpl.
  - constructor.
  - constructor; [|exact IH].
    unfold marker_shows, marker_of. cbn.
    repeat split; intros Hs.
    + subst s. reflexivity.
    + apply String.eqb_neq in Hs. rewrite Hs. reflexivity.
Qed.

Lemma scatter_markers_encode_rows_witness :
  exists fig,
    result_of (get_scatter_chart "ALL" (0, 650)) sample_table = Ok fig /\
    Forall2 (marker_shows "ALL")
            (filter (selected "ALL" (0, 650)) sample_table) (px.sc_points fig).
Proof.
  apply (scatter_markers_encode_rows sample_table "ALL" 0 650).
  intros r _ Hr. cbn [fst snd] in Hr. lia.
Defined.

(** * Purity and independence *)

(** C8.  Each callback leaves the table as it found it, and a second
    call with the same arguments, made on the table the first call left
    behind, gives the same result. *)
Theorem callbacks_repeatable_and_read_only
    (df : DataFrame) (s : string) (payload_range : Z * Z) :
  (table_after (get_pie_chart s) df = df /\
   result_of (get_pie_chart s) (table_after (get_pie_chart s) df)
   = result_of (get_pie_chart s) df) /\
  (table_after (get_scatter_chart s payload_range) df = df /\
   result_of (get_scatter_chart s payload_range)
             (table_after (get_scatter_chart s payload_range) df)
   = result_of (get_scatter_chart s payload_range) df) /\
  result_of (get_pie_chart s) (table_after (get_scatter_chart s payload_range) df)
  = result_of (get_pie_chart s) df /\
  result_of (get_scatter_chart s payload_range) (table_after (get_pie_chart s) df)
  = result_of (get_scatter_chart s payload_range) df.
Proof.
  rewrite table_after_get_pie_chart, table_after_get_scatter_chart.
  repeat split.
Qed.

(** C10.  Two settings of the controls that agree on the site give the
    same pie chart, whatever their payload ranges. *)
Theorem pie_independent_of_payload_range (df : DataFrame) (c1 c2 : Controls) :
  site_dropdown c1 = site_dropdown c2 ->
  success_pie_chart c1 df = success_pie_chart c2 df.
Proof.
  intros Hsite. unfold success_pie_chart. rewrite Hsite. reflexivity.
Qed.

Lemma pie_independent_of_payload_range_witness :
  success_pie_chart {| site_dropdown := "SiteA"; payload_slider := (0, 650) |}
                    sample_table
  = success_pie_chart {| site_dropdown := "SiteA"; payload_slider := (2000, 9000) |}
                      sample_table.
Proof.
  apply (pie_independent_of_payload_range sample_table
           {| site_dropdown := "SiteA"; payload_slider := (0, 650) |}
           {| site_dropdown := "SiteA"; payload_slider := (2000, 9000) |}).
  reflexivity.
Defined.

(** * The site selector *)

Module unique_facts.

Lemma existsb_eqb_In x seen :
  existsb (String.eqb x) seen = true <-> In x seen.
Proof.
  rewrite existsb_exists. split.
  - intros [y [Hy E]]. apply String.eqb_eq in E. subst. exact Hy.
  - intros H. exists x. split; [exact H | apply String.eqb_refl].
Qed.

Lemma In_fold_step xs : forall seen k,
  In k (fold_left pd.unique_step xs seen) <-> In k seen \/ In k xs.
Proof.
  induction xs as [|x xs IH]; intros seen k; simpl.
  - tauto.
  - rewrite IH. unfold pd.unique_step.
    destruct (existsb (String.eqb x) seen) eqn:E.
    + apply existsb_eqb_In in E. intuition (subst; auto).
    + rewrite in_app_iff. simpl. intuition (subst; auto).
Qed.

Lemma NoDup_fold_step xs : forall seen,
  NoDup seen -> NoDup (fold_left pd.unique_step xs seen).
Proof.
  induction xs as [|x xs IH]; intros seen Hnd; simpl; [exact Hnd|].
  apply IH. unfold pd.unique_step.
  destruct (existsb (String.eqb x) seen) eqn:E; [exact Hnd|].
  assert (Hx : ~ In x seen).
  { intros H. apply existsb_eqb_In in H. congruence. }
  apply NoDup_app; [exact Hnd | constructor; [simpl; tauto | constructor] |].
  intros y Hy [<- | []]. contradiction.
Qed.

Lemma In_unique xs k : In k (pd.unique xs) <-> In k xs.
Proof.
  unfold pd.unique.
  rewrite In_fold_step. simpl. tauto.
Qed.

Lemma NoDup_unique xs : NoDup (pd.unique xs).
Proof.
  unfold pd.unique.
  apply NoDup_fold_step. constructor.
Qed.

(** The labels of the sectors are collected the way [unique] collects. *)
Lemma labels_add_sector_step l v acc :
  map fst (px.add_sector l v acc) = pd.unique_step (map fst acc) l.
Proof.
  unfold pd.unique_step.
  induction acc as [|[l' v'] t IH]; simpl; [reflexivity|].
  destruct (String.eqb l l'); simpl; [reflexivity|].
  rewrite IH. destruct (existsb (String.eqb l) (map fst t)); reflexivity.
Qed.

Lemma labels_sectors_of_fold rows : forall acc,
  map fst (px.sectors_of rows acc) = fold_left pd.unique_step (map fst rows) (map fst acc).
Proof.
  unfold px.sectors_of.
  induction rows as [|[l v] t IH]; intros acc; simpl; [reflexivity|].
  rewrite IH, labels_add_sector_step. reflexivity.
Qed.

End unique_facts.

(** X1.  The site selector offers 'All Sites' (value "ALL") first and
    then every launch site of the table exactly once, labelled with its
    own name.  The option values are pairwise different exactly when no
    launch site is itself called "ALL". *)
Theorem site_dropdown_offers_each_site_once (df : DataFrame) :
  exists opts,
    site_dropdown_options df
    = {| opt_label := "All Sites"; opt_value := "ALL" |} :: opts /\
    NoDup (map opt_value opts) /\
    (forall s, In s (map opt_value opts) <-> In s (map launch_site df)) /\
    (forall o, In o opts -> opt_label o = opt_value o) /\
    (NoDup (map opt_value (site_dropdown_options df))
     <-> ~ In "ALL" (map launch_site df)).
Proof.
  eexists. split; [reflexivity|].
  assert (Hvalues :
    map opt_value
        (map (fun site => {| opt_label := site; opt_value := site |})
             (pd.unique (map launch_site df)))
    = pd.unique (map launch_site df)).
  { rewrite map_map. simpl. apply map_id. }
  unfold site_dropdown_options. cbn [app map opt_value]. rewrite Hvalues.
  split; [apply unique_facts.NoDup_unique|].
  split; [intros s; apply unique_facts.In_unique|].
  split.
  - intros o Ho. apply in_map_iff in Ho. destruct Ho as [site [<- _]]. reflexivity.
  - rewrite NoDup_cons_iff, unique_facts.In_unique.
    pose proof (unique_facts.NoDup_unique (map launch_site df)). tauto.
Qed.

(** * The counts of a single site *)

Module counts_facts.

Lemma get_bump c k s :
  pd.get c (pd.bump k s)
  = if c =? k
    then Some (match pd.get k s with Some n => n + 1 | None => 1 end)
    else pd.get c s.
Proof.
  induction s as [|[k' n] t IH]; simpl.
  - destruct (c =? k); reflexivity.
  - destruct (k =? k') eqn:Ek; simpl.
    + apply Z.eqb_eq in Ek. subst k'. destruct (c =? k); reflexivity.
    + destruct (c =? k') eqn:Ec.
      * apply Z.eqb_eq in Ec. subst k'.
        rewrite Z.eqb_sym, Ek. reflexivity.
      * exact IH.
Qed.

Lemma get_fold_bump c xs : forall acc,
  pd.get c (fold_left (fun a x => pd.bump x a) xs acc)
  = match pd.get c acc with
    | Some n => Some (n + pd.occurrences c xs)
    | None => if pd.occurrences c xs =? 0 then None
              else Some (pd.occurrences c xs)
    end.
Proof.
  induction xs as [|x xs IH]; intros acc.
  - simpl. unfold pd.occurrences. simpl.
    destruct (pd.get c acc); [f_equal; lia | reflexivity].
  - cbn [fold_left]. rewrite IH, get_bump, pd_facts.occurrences_cons.
    pose proof (pd_facts.occurrences_nonneg c xs) as Hnn.
    rewrite (Z.eqb_sym x c).
    destruct (c =? x) eqn:E.
    + apply Z.eqb_eq in E. subst x.
      destruct (pd.get c acc).
      * f_equal; lia.
      * destruct (Z.eqb_spec (1 + pd.occurrences c xs) 0); [lia|].
        f_equal; lia.
    + destruct (pd.get c acc); try reflexivity; f_equal; lia.
Qed.

Lemma index_bump c k s :
  In c (pd.index (pd.bump k s)) <-> c = k \/ In c (pd.index s).
Proof.
  unfold pd.index.
  induction s as [|[k' n] t IH]; simpl.
  - intuition congruence.
  - destruct (k =? k') eqn:E; simpl.
    + apply Z.eqb_eq in E. subst. intuition congruence.
    + rewrite IH. intuition congruence.
Qed.

Lemma NoDup_index_bump k s :
  NoDup (pd.index s) -> NoDup (pd.index (pd.bump k s)).
Proof.
  induction s as [|[k' n] t IH]; simpl; intros Hnd.
  - constructor; [simpl; tauto | constructor].
  - inversion Hnd as [|? ? Hnotin Hnd']; subst.
    destruct (k =? k') eqn:E; simpl.
    + constructor; assumption.
    + apply Z.eqb_neq in E. constructor.
      * fold (pd.index (pd.bump k t)). rewrite index_bump.
        intros [H | H]; [congruence | contradiction].
      * apply IH; assumption.
Qed.

Lemma NoDup_index_fold_bump xs : forall acc,
  NoDup (pd.index acc) ->
  NoDup (pd.index (fold_left (fun a x => pd.bump x a) xs acc)).
Proof.
  induction xs as [|x xs IH]; intros acc Hnd; simpl; [exact Hnd|].
  apply IH, NoDup_index_bump, Hnd.
Qed.

(** With distinct keys, an entry is in the series exactly when looking
    its key up gives its value. *)
Lemma In_get c n s :
  NoDup (pd.index s) -> (In (c, n) s <-> pd.get c s = Some n).
Proof.
  induction s as [|[k' m] t IH]; simpl; intros Hnd.
  - split; [tauto | discriminate].
  - inversion Hnd as [|? ? Hnotin Hnd']; subst.
    destruct (c =? k') eqn:E.
    + apply Z.eqb_eq in E. subst k'. split.
      * intros [H | H]; [congruence|].
        exfalso. apply Hnotin. apply in_map_iff. exists (c, n). split; [reflexivity | exact H].
      * intros H. left. congruence.
    + apply Z.eqb_neq in E. rewrite <- IH by assumption. split.
      * intros [H | H]; [congruence | exact H].
      * tauto.
Qed.

Lemma insert_desc_perm e s : Permutation (pd.insert_desc e s) (e :: s).
Proof.
  induction s as [|h t IH]; simpl; [apply Permutation_refl|].
  destruct (snd e <? snd h); [|apply Permutation_refl].
  rewrite IH. apply perm_swap.
Qed.

Lemma sort_values_desc_perm s : Permutation (pd.sort_values_desc s) s.
Proof.
  induction s as [|h t IH]; simpl; [constructor|].
  rewrite insert_desc_perm. constructor. exact IH.
Qed.

Lemma descending_insert_desc e s :
  descending (pd.values s) -> descending (pd.values (pd.insert_desc e s)).
Proof.
  unfold pd.values.
  induction s as [|h t IH]; simpl; intros Hs.
  - split; [tauto | exact I].
  - destruct Hs as [Hh Ht].
    destruct (Z.ltb_spec (snd e) (snd h)) as [Hlt | Hge]; simpl.
    + split; [|apply IH; exact Ht].
      intros b Hb.
      assert (Hb' : In b (map snd (e :: t))).
      { eapply Permutation_in; [|exact Hb].
        apply Permutation_map, insert_desc_perm. }
      simpl in Hb'. destruct Hb' as [<- | Hb']; [lia | apply Hh; exact Hb'].
    + split; [|split; assumption].
      intros b [<- | Hb]; [lia|]. specialize (Hh b Hb). lia.
Qed.

Lemma descending_sort_values_desc s :
  descending (pd.values (pd.sort_values_desc s)).
Proof.
  induction s as [|h t IH]; simpl; [exact I|].
  apply descending_insert_desc, IH.
Qed.

(** [value_counts]: distinct keys, each with its number of occurrences,
    and only the values that occur. *)
Lemma value_counts_entries xs :
  NoDup (pd.index (pd.value_counts xs)) /\
  forall c n, In (c, n) (pd.value_counts xs)
              <-> 0 < n /\ n = pd.occurrences c xs.
Proof.
  assert (Hnd : NoDup (pd.index (pd.tally xs))).
  { apply NoDup_index_fold_bump. constructor. }
  split.
  - unfold pd.value_counts, pd.index.
    eapply Permutation_NoDup; [|exact Hnd].
    apply Permutation_map, Permutation_sym, sort_values_desc_perm.
  - intros c n.
    assert (Hin : In (c, n) (pd.value_counts xs) <-> In (c, n) (pd.tally xs)).
    { unfold pd.value_counts. split; apply Permutation_in;
        [|apply Permutation_sym]; apply sort_values_desc_perm. }
    rewrite Hin, (In_get c n _ Hnd).
    unfold pd.tally. rewrite get_fold_bump. cbn [pd.get].
    pose proof (pd_facts.occurrences_nonneg c xs) as Hnn.
    destruct (Z.eqb_spec (pd.occurrences c xs) 0) as [E | E].
    + split; [discriminate | lia].
    + split; [intros H; injection H as <-; lia | intros [_ ->]; reflexivity].
Qed.

End counts_facts.

Lemma count_rows_pos p df :
  0 < count_rows p df <-> exists r, In r df /\ p r = true.
Proof.
  unfold count_rows. split.
  - intros Hpos. destruct (filter p df) as [|r rows] eqn:E; [simpl in Hpos; lia|].
    exists r. apply filter_In. rewrite E. left. reflexivity.
  - intros [r Hr]. apply filter_In in Hr.
    destruct (filter p df); [contradiction | rewrite length_cons; lia].
Qed.

(** A site whose rows all have class [k]: one count, keyed by [k]. *)
Lemma success_counts_single_class s k df :
  (exists r, In r df /\ launch_site r = s) ->
  (forall r, In r df -> launch_site r = s -> class r = k) ->
  success_counts s df = [(k, count_rows (at_site s) df)].
Proof.
  intros Hex Hk.
  unfold success_counts, count_rows, at_site.
  pose proof (site_rows_constant_class s k df Hk) as Hconst.
  pose proof (site_rows_nonempty s df Hex) as Hne.
  unfold site_rows, pd.select in *.
  destruct (filter (fun r => String.eqb (launch_site r) s) df) as [|r rows];
    [congruence|].
  cbn [map] in *. rewrite (pd_facts.value_counts_constant k) by assumption.
  rewrite !length_cons, length_map. reflexivity.
Qed.

(** X3.  The counts of a site list each class that occurs among the
    site's rows exactly once, with the number of the site's rows of that
    class; a class that does not occur at the site has no entry. *)
Theorem success_counts_entries (df : DataFrame) (s : string) :
  NoDup (pd.index (success_counts s df)) /\
  forall c n,
    In (c, n) (success_counts s df)
    <-> 0 < n /\ n = count_rows (fun r => at_site s r && has_class c r) df.
Proof.
  unfold success_counts.
  destruct (counts_facts.value_counts_entries (map class (site_rows s df)))
    as [Hnd Hin].
  split; [exact Hnd|].
  intros c n. rewrite Hin, occurrences_site_class. reflexivity.
Qed.

(** X4.  The count array of a site never increases from one entry to
    the next: the count of the most frequent class comes first, whichever
    class that is.  Every pie chart returned for a single site has its
    values in that order. *)
Theorem pie_site_values_descending (df : DataFrame) (s : string) :
  descending (pd.values (success_counts s df)) /\
  (s <> "ALL" ->
   forall fig, result_of (get_pie_chart s) df = Ok fig ->
               descending (px.pie_values fig)).
Proof.
  assert (Hdesc : descending (pd.values (success_counts s df))).
  { unfold success_counts, pd.value_counts.
    apply counts_facts.descending_sort_values_desc. }
  split; [exact Hdesc|].
  intros Hs fig. unfold result_of. rewrite run_get_pie_chart_site by assumption.
  unfold px.pie. cbn [fst].
  destruct (Nat.eqb _ _); [|discriminate].
  intros Hfig. injection Hfig as <-. exact Hdesc.
Qed.

(** X5.  At a site other than "ALL" whose rows all carry one and the
    same class other than 0, the pie chart is a single sector labelled
    "Success" whose value is the number of rows of the site. *)
Theorem pie_single_nonzero_class_site (df : DataFrame) (s : string) (k : Z) :
  s <> "ALL" ->
  k <> 0 ->
  (exists r, In r df /\ launch_site r = s) ->
  (forall r, In r df -> launch_site r = s -> class r = k) ->
  exists fig,
    result_of (get_pie_chart s) df = Ok fig /\
    px.pie_labels fig = ["Success"] /\
    px.pie_values fig = [count_rows (at_site s) df] /\
    px.pie_title fig = "Total Success Launches for site " ++ s.
Proof.
  intros Hs Hk Hex Hall.
  unfold result_of. rewrite run_get_pie_chart_site by assumption.
  rewrite (success_counts_single_class s k df Hex Hall).
  unfold pie_names, pd.contains, pd.index. cbn [map fst existsb orb].
  assert (E : (0 =? k) = false) by (apply Z.eqb_neq; congruence).
  rewrite E. eexists. split; [reflexivity|]. repeat split.
Qed.

Lemma pie_single_nonzero_class_site_witness :
  exists fig,
    result_of (get_pie_chart "SiteB") sample_table = Ok fig /\
    px.pie_labels fig = ["Success"] /\
    px.pie_values fig = [count_rows (at_site "SiteB") sample_table] /\
    px.pie_title fig = "Total Success Launches for site " ++ "SiteB".
Proof.
  apply (pie_single_nonzero_class_site sample_table "SiteB" 1).
  - discriminate.
  - lia.
  - exists (mkLaunch "SiteB" 1 600 "v2"). split; [right; right; left|]; reflexivity.
  - intros r Hr Hs. simpl in Hr.
    destruct Hr as [<- | [<- | [<- | []]]]; try reflexivity; discriminate.
Defined.

(** X6.  On a table whose classes are all 0 or 1, the pie callback for
    a site other than "ALL" returns a chart exactly when the site has at
    least one row of class 1; otherwise (failures only, or no row at
    all) it raises [ValueError]. *)
Theorem pie_site_chart_iff_some_success (df : DataFrame) (s : string) :
  s <> "ALL" ->
  binary_classes df ->
  ((exists fig, result_of (get_pie_chart s) df = Ok fig)
   <-> 0 < count_rows (fun r => at_site s r && has_class 1 r) df) /\
  (result_of (get_pie_chart s) df = Raise ValueError
   <-> count_rows (fun r => at_site s r && has_class 1 r) df = 0).
Proof.
  intros Hs Hbin.
  set (c0 := count_rows (fun r => at_site s r && has_class 0 r) df).
  set (c1 := count_rows (fun r => at_site s r && has_class 1 r) df).
  assert (Hc0 : 0 <= c0) by (unfold c0, count_rows; lia).
  assert (Hc1 : 0 <= c1) by (unfold c1, count_rows; lia).
  assert (Hrows : forall k, count_rows (fun r => at_site s r && has_class k r) df = 0 ->
                  forall r, In r df -> launch_site r = s -> class r <> k).
  { intros k Hzero r Hr Hsite Hclass.
    assert (Hpos : 0 < count_rows (fun r => at_site s r && has_class k r) df).
    { apply count_rows_pos. exists r. split; [exact Hr|].
      unfold at_site, has_class. apply andb_true_iff. split.
      - apply String.eqb_eq. exact Hsite.
      - apply Z.eqb_eq. exact Hclass. }
    lia. }
  assert (Hcases :
    (0 < c1 /\ exists fig, result_of (get_pie_chart s) df = Ok fig) \/
    (c1 = 0 /\ result_of (get_pie_chart s) df = Raise ValueError)).
  { destruct (Z.eq_dec c1 0) as [E1 | E1].
    - right. split; [exact E1|].
      destruct (Z.eq_dec c0 0) as [E0 | E0].
      + apply pie_unknown_site_raises; [exact Hs|].
        intros Hin. apply in_map_iff in Hin. destruct Hin as [r [Hsite Hr]].
        destruct (Hbin r Hr) as [H | H].
        * exact (Hrows 0 E0 r Hr Hsite H).
        * exact (Hrows 1 E1 r Hr Hsite H).
      + assert (Hex : exists r, In r df /\ launch_site r = s).
        { assert (Hpos : 0 < c0) by lia.
          apply count_rows_pos in Hpos. destruct Hpos as [r [Hr Hp]].
          exists r. split; [exact Hr|].
          apply andb_true_iff in Hp. apply String.eqb_eq. tauto. }
        assert (Hall : forall r, In r df -> launch_site r = s -> class r = 0).
        { intros r Hr Hsite. destruct (Hbin r Hr) as [H | H]; [exact H|].
          exfalso. exact (Hrows 1 E1 r Hr Hsite H). }
        unfold result_of. rewrite run_get_pie_chart_site by assumption.
        rewrite (success_counts_single_class s 0 df Hex Hall). reflexivity.
    - left. split; [lia|].
      destruct (Z.eq_dec c0 0) as [E0 | E0].
      + assert (Hex : exists r, In r df /\ launch_site r = s).
        { assert (Hpos : 0 < c1) by lia.
          apply count_rows_pos in Hpos. destruct Hpos as [r [Hr Hp]].
          exists r. split; [exact Hr|].
          apply andb_true_iff in Hp. apply String.eqb_eq. tauto. }
        assert (Hall : forall r, In r df -> launch_site r = s -> class r = 1).
        { intros r Hr Hsite. destruct (Hbin r Hr) as [H | H]; [|exact H].
          exfalso. exact (Hrows 0 E0 r Hr Hsite H). }
        unfold result_of. rewrite run_get_pie_chart_site by assumption.
        rewrite (success_counts_single_class s 1 df Hex Hall).
        eexists. reflexivity.
      + destruct (pie_both_classes_larger_count_first df s Hs Hbin
                    ltac:(fold c0; lia) ltac:(fold c1; lia)) as [fig [Hfig _]].
        exists fig. exact Hfig. }
  destruct Hcases as [[Hpos [fig Hfig]] | [Hzero Hraise]].
  - split; split; intros H; try lia; try (exists fig; exact Hfig).
    rewrite Hfig in H. discriminate.
  - split; split; intros H; try lia; try exact Hraise.
    destruct H as [fig Hfig]. rewrite Hraise in Hfig. discriminate.
Qed.

Lemma pie_site_chart_iff_some_success_witness :
  ((exists fig, result_of (get_pie_chart "SiteA") failures_only_table = Ok fig)
   <-> 0 < count_rows (fun r => at_site "SiteA" r && has_class 1 r)
                      failures_only_table) /\
  (result_of (get_pie_chart "SiteA") failures_only_table = Raise ValueError
   <-> count_rows (fun r => at_site "SiteA" r && has_class 1 r)
                  failures_only_table = 0).
Proof.
  apply (pie_site_chart_iff_some_success failures_only_table "SiteA").
  - discriminate.
  - intros r Hr. simpl in Hr.
    destruct Hr as [<- | [<- | [<- | []]]]; simpl; lia.
Defined.

(** * The pie chart of all sites, as a whole *)

Lemma total_add_sector_values l v acc :
  pd.total (map snd (px.add_sector l v acc)) = pd.total (map snd acc) + v.
Proof.
  induction acc as [|[l' v'] t IH]; simpl; [lia|].
  destruct (String.eqb l l'); simpl; [lia | rewrite IH; lia].
Qed.

Lemma total_sectors_of_values rows : forall acc,
  pd.total (map snd (px.sectors_of rows acc))
  = pd.total (map snd acc) + pd.total (map snd rows).
Proof.
  unfold px.sectors_of.
  induction rows as [|[l v] t IH]; intros acc; simpl; [lia|].
  rewrite IH, total_add_sector_values. lia.
Qed.

Lemma total_binary_class_column df :
  binary_classes df -> pd.total (map class df) = count_rows (has_class 1) df.
Proof.
  unfold count_rows, has_class.
  induction df as [|r df IH]; intros Hbin; [reflexivity|].
  assert (Hr : class r = 0 \/ class r = 1) by (apply Hbin; left; reflexivity).
  assert (Hbin' : binary_classes df) by (intros r' Hr'; apply Hbin; right; exact Hr').
  cbn [map pd.total fold_right filter].
  change (fold_right Z.add 0 (map class df)) with (pd.total (map class df)).
  rewrite (IH Hbin').
  destruct Hr as [Hr | Hr]; rewrite Hr.
  - change (0 =? 1) with false. cbv iota. lia.
  - change (1 =? 1) with true. cbv iota. rewrite length_cons. lia.
Qed.

(** X7.  On a table whose classes are all 0 or 1, the sector values of
    the "ALL" pie add up to the number of successful launches of the
    whole table (with no success at all there is no sector and the sum
    is 0). *)
Theorem pie_all_sector_values_total (df : DataFrame) :
  binary_classes df ->
  exists fig,
    result_of (get_pie_chart "ALL") df = Ok fig /\
    pd.total (map snd (px.sectors fig)) = count_rows (has_class 1) df.
Proof.
  intros Hbin. unfold result_of. rewrite run_get_pie_chart_all.
  eexists. split; [reflexivity|].
  unfold px.sectors. cbn [pie_update_layout px.pie_labels px.pie_values].
  rewrite sector_facts.sectors_from_binary
    by (assumption || (rewrite length_map; reflexivity)).
  destruct (existsb (has_class 1) df) eqn:Hsome.
  - rewrite (sector_facts.total_perm _ _
               (Permutation_map snd (sector_facts.sort_sectors_perm _))).
    rewrite total_sectors_of_values.
    rewrite sector_facts.map_snd_combine
      by (rewrite sector_facts.length_position_labels, !length_map; reflexivity).
    rewrite total_binary_class_column by assumption. simpl. lia.
  - unfold count_rows.
    assert (Hnone : filter (has_class 1) df = []).
    { clear Hbin. induction df as [|r df IH]; [reflexivity|].
      simpl in *. apply orb_false_iff in Hsome. destruct Hsome as [Hr Hrest].
      rewrite Hr. apply IH. exact Hrest. }
    rewrite Hnone. reflexivity.
Qed.

Lemma pie_all_sector_values_total_witness :
  exists fig,
    result_of (get_pie_chart "ALL") sample_table = Ok fig /\
    pd.total (map snd (px.sectors fig)) = count_rows (has_class 1) sample_table.
Proof.
  apply (pie_all_sector_values_total sample_table).
  intros r Hr. simpl in Hr.
  destruct Hr as [<- | [<- | [<- | []]]]; simpl; lia.
Defined.

(** * Start-up values and the first charts *)

Lemma fold_min_spec t : forall x,
  fold_left Z.min t x <= x /\
  (forall y, In y t -> fold_left Z.min t x <= y) /\
  In (fold_left Z.min t x) (x :: t).
Proof.
  induction t as [|a t IH]; intros x; simpl.
  - split; [lia|]. split; [tauto | left; reflexivity].
  - destruct (IH (Z.min x a)) as [Hle [Hall Hin]].
    split; [lia|]. split.
    + intros y [<- | Hy]; [lia | apply Hall; exact Hy].
    + simpl in Hin. destruct Hin as [Hin | Hin]; [|right; right; exact Hin].
      rewrite <- Hin. destruct (Z.min_spec x a) as [[_ ->] | [_ ->]]; tauto.
Qed.

Lemma fold_max_spec t : forall x,
  x <= fold_left Z.max t x /\
  (forall y, In y t -> y <= fold_left Z.max t x) /\
  In (fold_left Z.max t x) (x :: t).
Proof.
  induction t as [|a t IH]; intros x; simpl.
  - split; [lia|]. split; [tauto | left; reflexivity].
  - destruct (IH (Z.max x a)) as [Hle [Hall Hin]].
    split; [lia|]. split.
    + intros y [<- | Hy]; [lia | apply Hall; exact Hy].
    + simpl in Hin. destruct Hin as [Hin | Hin]; [|right; right; exact Hin].
      rewrite <- Hin. destruct (Z.max_spec x a) as [[_ ->] | [_ ->]]; tauto.
Qed.

Lemma payload_bounds_cover_rows (df : DataFrame) :
  df <> [] ->
  exists low high,
    min_payload df = Some low /\ max_payload df = Some high /\
    forall r, In r df -> low <= payload_mass r <= high.
Proof.
  intros Hne. destruct df as [|r0 df]; [congruence|].
  unfold min_payload, max_payload, pd.min, pd.max. cbn [map].
  destruct (fold_min_spec (map payload_mass df) (payload_mass r0)) as [Hmin0 [Hmin _]].
  destruct (fold_max_spec (map payload_mass df) (payload_mass r0)) as [Hmax0 [Hmax _]].
  eexists. eexists. split; [reflexivity|]. split; [reflexivity|].
  intros r [<- | Hr]; [lia|].
  assert (Hp : In (payload_mass r) (map payload_mass df)) by (apply in_map; exact Hr).
  specialize (Hmin _ Hp). specialize (Hmax _ Hp). lia.
Qed.

(** X8.  For a table with at least one row, [min_payload] and
    [max_payload] are payloads of rows of the table and every payload of
    the table lies between them; for the empty table neither exists. *)
Theorem payload_bounds_are_tight (df : DataFrame) :
  (df = [] -> min_payload df = None /\ max_payload df = None) /\
  (df <> [] ->
   exists low high,
     min_payload df = Some low /\ max_payload df = Some high /\
     (forall r, In r df -> low <= payload_mass r <= high) /\
     (exists r, In r df /\ payload_mass r = low) /\
     (exists r, In r df /\ payload_mass r = high)).
Proof.
  split; [intros ->; split; reflexivity|].
  intros Hne. destruct df as [|r0 df]; [congruence|].
  unfold min_payload, max_payload, pd.min, pd.max. cbn [map].
  destruct (fold_min_spec (map payload_mass df) (payload_mass r0))
    as [Hmin0 [Hmin Hmin_in]].
  destruct (fold_max_spec (map payload_mass df) (payload_mass r0))
    as [Hmax0 [Hmax Hmax_in]].
  eexists. eexists. split; [reflexivity|]. split; [reflexivity|].
  split; [|split].
  - intros r [<- | Hr]; [lia|].
    assert (Hp : In (payload_mass r) (map payload_mass df)) by (apply in_map; exact Hr).
    specialize (Hmin _ Hp). specialize (Hmax _ Hp). lia.
  - change (payload_mass r0 :: map payload_mass df)
      with (map payload_mass (r0 :: df)) in Hmin_in.
    apply in_map_iff in Hmin_in. destruct Hmin_in as [r [E Hr]].
    exists r. split; assumption.
  - change (payload_mass r0 :: map payload_mass df)
      with (map payload_mass (r0 :: df)) in Hmax_in.
    apply in_map_iff in Hmax_in. destruct Hmax_in as [r [E Hr]].
    exists r. split; assumption.
Qed.

(** X9.  On a freshly loaded page (site "ALL", payload range from
    [min_payload] to [max_payload]) the scatter chart shows every row of
    the table, provided the table has a row and no negative payload. *)
Theorem first_scatter_chart_shows_whole_table (df : DataFrame) :
  df <> [] ->
  (forall r, In r df -> 0 <= payload_mass r) ->
  exists c fig,
    initial_controls df = Some c /\
    site_dropdown c = "ALL" /\
    result_of (success_payload_scatter_chart c) df = Ok fig /\
    px.sc_data fig = df.
Proof.
  intros Hne Hnonneg.
  destruct (payload_bounds_cover_rows df Hne) as [low [high [Hmin [Hmax Hbounds]]]].
  assert (Hwin : window_nonnegative (low, high) df).
  { intros r Hr _. apply Hnonneg. exact Hr. }
  destruct (run_get_scatter_chart "ALL" (low, high) df
              (window_nonnegative_sizes _ _ df Hwin)) as [fig [Hrun [Hdata _]]].
  exists {| site_dropdown := "ALL"; payload_slider := (low, high) |}, fig.
  split.
  { unfold initial_controls, payload_slider_layout. cbn [slider_value].
    rewrite Hmin, Hmax. reflexivity. }
  split; [reflexivity|].
  unfold success_payload_scatter_chart, result_of. cbn [site_dropdown payload_slider].
  rewrite Hrun. split; [reflexivity|].
  rewrite Hdata, scatter_frame_selected. apply filter_all.
  intros r Hr. apply selected_spec. split; [apply Hbounds; exact Hr|].
  intros Hall. exfalso. apply Hall. reflexivity.
Qed.

Lemma first_scatter_chart_shows_whole_table_witness :
  exists c fig,
    initial_controls sample_table = Some c /\
    site_dropdown c = "ALL" /\
    result_of (success_payload_scatter_chart c) sample_table = Ok fig /\
    px.sc_data fig = sample_table.
Proof.
  apply (first_scatter_chart_shows_whole_table sample_table).
  - discriminate.
  - intros r Hr. simpl in Hr.
    destruct Hr as [<- | [<- | [<- | []]]]; simpl; lia.
Defined.

(** * How scatter charts relate to one another *)

Lemma window_nonnegative_narrower low high low' high' df :
  low' <= low -> high <= high' ->
  window_nonnegative (low', high') df -> window_nonnegative (low, high) df.
Proof.
  intros Hlow Hhigh Hwide r Hr Hin. cbn [fst snd] in *.
  apply (Hwide r Hr). cbn [fst snd]. lia.
Qed.

(** X10.  Narrowing the payload range only removes rows: the chart for
    [low, high] is built from the rows of the chart for a wider range
    [low', high'] that lie in [low, high], in the same order. *)
Theorem scatter_narrower_range_filters_wider
    (df : DataFrame) (s : string) (low high low' high' : Z) :
  low' <= low -> high <= high' ->
  window_nonnegative (low', high') df ->
  exists fig fig',
    result_of (get_scatter_chart s (low, high)) df = Ok fig /\
    result_of (get_scatter_chart s (low', high')) df = Ok fig' /\
    px.sc_data fig = filter (in_window low high) (px.sc_data fig').
Proof.
  intros Hlow Hhigh Hwide.
  pose proof (window_nonnegative_narrower _ _ _ _ df Hlow Hhigh Hwide) as Hnarrow.
  destruct (run_get_scatter_chart s (low, high) df
              (window_nonnegative_sizes s _ df Hnarrow)) as [fig [Hrun [Hdata _]]].
  destruct (run_get_scatter_chart s (low', high') df
              (window_nonnegative_sizes s _ df Hwide)) as [fig' [Hrun' [Hdata' _]]].
  exists fig, fig'. unfold result_of. rewrite Hrun, Hrun'.
  split; [reflexivity|]. split; [reflexivity|].
  rewrite Hdata, Hdata', !scatter_frame_selected, filter_filter.
  apply filter_ext. intros r. unfold selected, in_window. cbn [fst snd].
  destruct (String.eqb s "ALL" || at_site s r);
    rewrite ?andb_true_r, ?andb_false_r; [|reflexivity].
  destruct (Z.leb_spec low (payload_mass r)), (Z.leb_spec (payload_mass r) high),
           (Z.leb_spec low' (payload_mass r)), (Z.leb_spec (payload_mass r) high');
    cbn [andb]; try reflexivity; lia.
Qed.

Lemma scatter_narrower_range_filters_wider_witness :
  exists fig fig',
    result_of (get_scatter_chart "ALL" (550, 650)) sample_table = Ok fig /\
    result_of (get_scatter_chart "ALL" (0, 1000)) sample_table = Ok fig' /\
    px.sc_data fig = filter (in_window 550 650) (px.sc_data fig').
Proof.
  apply (scatter_narrower_range_filters_wider sample_table "ALL" 550 650 0 1000).
  - lia.
  - lia.
  - intros r _ Hr. cbn [fst snd] in Hr. lia.
Defined.

Lemma plotted_rows_selected s payload_range df :
  window_nonnegative payload_range df ->
  plotted_rows s payload_range df
  = Z.of_nat (List.length (filter (selected s payload_range) df)).
Proof.
  intros Hwin. unfold plotted_rows.
  destruct (run_get_scatter_chart s payload_range df
              (window_nonnegative_sizes s _ df Hwin)) as [fig [Hrun [Hdata _]]].
  unfold result_of. rewrite Hrun. cbn [fst].
  rewrite Hdata, scatter_frame_selected. reflexivity.
Qed.

(** Over keys without repetition, exactly one key is the site of a row
    whose site is among them. *)
Lemma one_site_among k ks :
  NoDup ks -> In k ks ->
  pd.total (map (fun s => if String.eqb k s then 1 else 0) ks) = 1.
Proof.
  induction ks as [|a ks IH]; intros Hnd Hin; [contradiction|].
  inversion Hnd as [|? ? Hnotin Hnd']; subst.
  cbn [map pd.total fold_right].
  change (fold_right Z.add 0 (map (fun s => if String.eqb k s then 1 else 0) ks))
    with (pd.total (map (fun s => if String.eqb k s then 1 else 0) ks)).
  destruct (String.eqb k a) eqn:E.
  - apply String.eqb_eq in E. subst a.
    assert (Hzero : pd.total (map (fun s => if String.eqb k s then 1 else 0) ks) = 0).
    { clear IH Hnd Hnd' Hin. induction ks as [|b ks IH]; [reflexivity|].
      cbn [map pd.total fold_right].
      change (fold_right Z.add 0 (map (fun s => if String.eqb k s then 1 else 0) ks))
        with (pd.total (map (fun s => if String.eqb k s then 1 else 0) ks)).
      destruct (String.eqb k b) eqn:E.
      - apply String.eqb_eq in E. subst b. exfalso. apply Hnotin. left. reflexivity.
      - rewrite IH; [reflexivity|]. intros H. apply Hnotin. right. exact H. }
    lia.
  - apply String.eqb_neq in E. destruct Hin as [H | H]; [congruence|].
    rewrite (IH Hnd' H). lia.
Qed.

Lemma total_map_add {A} (f g : A -> Z) (l : list A) :
  pd.total (map (fun a => f a + g a) l) = pd.total (map f l) + pd.total (map g l).
Proof.
  induction l as [|a l IH]; [reflexivity|].
  cbn [map pd.total fold_right] in *. unfold pd.total in IH. rewrite IH. lia.
Qed.

(** Rows split by site: the rows are as many as the rows of each key
    taken together. *)
Lemma rows_split_by_site ks (rows : DataFrame) :
  NoDup ks ->
  (forall r, In r rows -> In (launch_site r) ks) ->
  Z.of_nat (List.length rows)
  = pd.total (map (fun s => Z.of_nat (List.length (filter (at_site s) rows))) ks).
Proof.
  intros Hnd. induction rows as [|r rows IH]; intros Hin.
  - clear Hnd Hin. unfold pd.total.
    induction ks as [|k ks IHk]; simpl in *; [reflexivity | exact IHk].
  - rewrite length_cons, Nat2Z.inj_succ.
    rewrite (map_ext
               (fun s => Z.of_nat (List.length (filter (at_site s) (r :: rows))))
               (fun s => (if String.eqb (launch_site r) s then 1 else 0)
                         + Z.of_nat (List.length (filter (at_site s) rows)))).
    + rewrite total_map_add, one_site_among, <- IH; try assumption.
      * lia.
      * intros r' Hr'. apply Hin. right. exact Hr'.
      * apply Hin. left. reflexivity.
    + intros s. cbn [filter]. unfold at_site at 1.
      destruct (String.eqb (launch_site r) s); [rewrite length_cons|]; lia.
Qed.

(** X11.  When no launch site is itself called "ALL", the single-site
    charts split the chart of all sites: for one payload range, the
    numbers of rows plotted for the distinct sites of the table add up to
    the number of rows plotted for "ALL". *)
Theorem scatter_site_charts_split_all_chart
    (df : DataFrame) (payload_range : Z * Z) :
  ~ In "ALL" (map launch_site df) ->
  window_nonnegative payload_range df ->
  plotted_rows "ALL" payload_range df
  = pd.total (map (fun s => plotted_rows s payload_range df)
                  (pd.unique (map launch_site df))).
Proof.
  intros Hnoall Hwin. destruct payload_range as [low high].
  rewrite plotted_rows_selected by assumption.
  rewrite (map_ext_in
             (fun s => plotted_rows s (low, high) df)
             (fun s => Z.of_nat (List.length
                                   (filter (at_site s) (filter (in_window low high) df))))).
  - rewrite <- rows_split_by_site.
    + f_equal. f_equal. apply filter_ext. intros r.
      unfold selected, in_window. cbn [fst snd orb String.eqb Ascii.eqb Bool.eqb].
      apply andb_true_r.
    + apply unique_facts.NoDup_unique.
    + intros r Hr. apply filter_In in Hr. apply unique_facts.In_unique.
      apply in_map. tauto.
  - intros s Hs. apply (proj1 (unique_facts.In_unique _ _)) in Hs.
    assert (Hne : String.eqb s "ALL" = false).
    { apply String.eqb_neq. intros E. apply Hnoall. rewrite <- E. exact Hs. }
    rewrite plotted_rows_selected by assumption.
    rewrite filter_filter. f_equal. f_equal. apply filter_ext. intros r.
    unfold selected, in_window. cbn [fst snd]. rewrite Hne. reflexivity.
Qed.

Lemma scatter_site_charts_split_all_chart_witness :
  plotted_rows "ALL" (0, 650) sample_table
  = pd.total (map (fun s => plotted_rows s (0, 650) sample_table)
                  (pd.unique (map launch_site sample_table))).
Proof.
  apply (scatter_site_charts_split_all_chart sample_table (0, 650)).
  - simpl. intros [H | [H | [H | []]]]; discriminate.
  - intros r _ Hr. cbn [fst snd] in Hr. lia.
Defined.

(** X12.  The scatter callback raises [ValueError] exactly when a row it
    selects has a negative payload (a negative marker size); a range that
    starts at 0 or above therefore always gives a chart. *)
Theorem scatter_raises_iff_negative_payload_selected
    (df : DataFrame) (s : string) (low high : Z) :
  (result_of (get_scatter_chart s (low, high)) df = Raise ValueError
   <-> exists r, In r df /\ selected s (low, high) r = true /\ payload_mass r < 0) /\
  (0 <= low ->
   exists fig, result_of (get_scatter_chart s (low, high)) df = Ok fig).
Proof.
  assert (Hraise :
    forallb (fun r => 0 <=? payload_mass r) (scatter_frame s (low, high) df) = false ->
    result_of (get_scatter_chart s (low, high)) df = Raise ValueError).
  { unfold scatter_frame, result_of, get_scatter_chart, bind, read_spacex_df, lift, ret.
    destruct (String.eqb s "ALL"); intros Hsizes; unfold px.scatter;
      rewrite Hsizes; reflexivity. }
  split.
  - destruct (forallb (fun r => 0 <=? payload_mass r) (scatter_frame s (low, high) df))
      eqn:Hsizes.
    + destruct (run_get_scatter_chart s (low, high) df Hsizes) as [fig [Hrun _]].
      unfold result_of. rewrite Hrun. split; [discriminate|].
      intros [r [Hr [Hsel Hneg]]]. exfalso.
      rewrite forallb_forall in Hsizes.
      assert (Hin : In r (scatter_frame s (low, high) df)).
      { rewrite scatter_frame_selected. apply filter_In. tauto. }
      specialize (Hsizes r Hin). apply Z.leb_le in Hsizes. lia.
    + split; [|intros _; apply Hraise; reflexivity].
      intros _.
      assert (Hex : exists r, In r (scatter_frame s (low, high) df)
                              /\ (0 <=? payload_mass r) = false).
      { clear Hraise. induction (scatter_frame s (low, high) df) as [|r rows IH];
          [discriminate|].
        simpl in Hsizes. destruct (0 <=? payload_mass r) eqn:E.
        - destruct (IH Hsizes) as [r' [Hr' E']]. exists r'. split; [right|]; assumption.
        - exists r. split; [left; reflexivity | exact E]. }
      destruct Hex as [r [Hr E]]. rewrite scatter_frame_selected in Hr.
      apply filter_In in Hr. apply Z.leb_gt in E. exists r. tauto.
  - intros Hlow.
    assert (Hwin : window_nonnegative (low, high) df).
    { intros r _ Hr. cbn [fst snd] in Hr. lia. }
    destruct (run_get_scatter_chart s (low, high) df
                (window_nonnegative_sizes s _ df Hwin)) as [fig [Hrun _]].
    exists fig. unfold result_of. rewrite Hrun. reflexivity.
Qed.
